(** * colanode server: AI configuration and LLM service

    A shallow embedding of [apps/server/src/lib/configuration.ts] (the
    settings object built from the process environment) and of the LLM
    service that resolves a chat model per task and drives the prompts
    (model resolution, reranking, answer synthesis, intent routing,
    evaluate-and-refine), followed by the properties of the specification
    that these functions decide. *)

From Stdlib Require Import ZArith Lia Ascii String DecimalString.
From Stdlib Require Import FunctionalExtensionality.
From Stdlib Require Import Floats.PrimFloat Floats.SpecFloat Floats.FloatOps.
From Stdlib Require Import Numbers.Cyclic.Int63.Uint63.
From stdpp Require Import gmap strings list.

Local Open Scope string_scope.

(** ** JavaScript values used by the module *)

(** A JS [number] is an IEEE-754 double. *)
Definition number : Set := PrimFloat.float.
Bind Scope float_scope with number.

Definition number_of_nat (n : nat) : number :=
  PrimFloat.of_uint63 (Uint63.of_Z (Z.of_nat n)).

(** What [throw] carries: [new Error(message)] in the source, and the
    engine's own [TypeError] (property read on [undefined]) and
    [SyntaxError] ([BigInt] on a malformed literal). *)
Inductive Exception : Set :=
| Error (message : string)
| TypeError (message : string)
| SyntaxError (message : string).

Inductive Result (A : Type) : Type :=
| Ok (value : A)
| Throw (e : Exception).
Arguments Ok {A} value.
Arguments Throw {A} e.

Definition bindR {A B} (r : Result A) (k : A -> Result B) : Result B :=
  match r with
  | Ok a => k a
  | Throw e => Throw e
  end.

Notation "'try!' x ':=' r 'in' k" := (bindR r (fun x => k))
  (at level 10, x name, r at level 100, k at level 200).

(** [a || b] on [string | undefined]: the empty string is falsy too. *)
Definition orElse (a : option string) (b : string) : string :=
  match a with
  | Some (String c s) => String c s
  | _ => b
  end.

(** [a === 'true'] on [string | undefined]. *)
Definition isTrue (a : option string) : bool := bool_decide (a = Some "true").

(** [!x] on [boolean | undefined]. *)
Definition falsy (x : option bool) : bool :=
  match x with
  | Some true => false
  | _ => true
  end.

Definition newline : string := String (ascii_of_nat 10) EmptyString.

(** [`${idx}`] for an array position. *)
Definition decimal (n : nat) : string := NilEmpty.string_of_uint (Nat.to_uint n).

(** ** String.prototype.trim and toLowerCase

    A string is a sequence of UTF-16 code units below 256 (the Latin-1
    range), one per character; text with other code units is outside the
    model. On these [trim] strips the white space and line terminators of
    ECMAScript in the range: TAB, LF, VT, FF, CR, SP and the no-break space
    U+00A0; [toLowerCase] maps the capital letters of the range, [A-Z],
    U+00C0 to U+00D6 and U+00D8 to U+00DE, to the letter 32 above, and
    nothing else. *)
Definition isWhiteSpace (c : ascii) : bool :=
  let n := nat_of_ascii c in
  ((9 <=? n)%nat && (n <=? 13)%nat) || (n =? 32)%nat || (n =? 160)%nat.

Fixpoint trimStart (s : string) : string :=
  match s with
  | String c s' => if isWhiteSpace c then trimStart s' else s
  | EmptyString => EmptyString
  end.

Fixpoint reverse (s acc : string) : string :=
  match s with
  | String c s' => reverse s' (String c acc)
  | EmptyString => acc
  end.

Definition trimEnd (s : string) : string :=
  reverse (trimStart (reverse s "")) "".

Definition trim (s : string) : string := trimEnd (trimStart s).

Definition lowerChar (c : ascii) : ascii :=
  let n := nat_of_ascii c in
  if ((65 <=? n)%nat && (n <=? 90)%nat)
     || ((192 <=? n)%nat && (n <=? 214)%nat)
     || ((216 <=? n)%nat && (n <=? 222)%nat)
  then ascii_of_nat (n + 32)
  else c.

Fixpoint toLowerCase (s : string) : string :=
  match s with
  | String c s' => String (lowerChar c) (toLowerCase s')
  | EmptyString => EmptyString
  end.

(** ** configuration.ts: the interfaces *)

Module ServerConfiguration.
Record t : Set := { name : string; avatar : string; mode : string }.
End ServerConfiguration.

Module AccountConfiguration.
Record t : Set :=
  { verificationType : string; otpTimeout : number; allowGoogleLogin : bool }.
End AccountConfiguration.

Module UserConfiguration.
Record t : Set := { storageLimit : Z; maxFileSize : Z }.
End UserConfiguration.

Module PostgresConfiguration.
Record Ssl : Set :=
  { rejectUnauthorized : option bool;
    ca : option string;
    key : option string;
    cert : option string }.
Record t : Set := { url : string; ssl : Ssl }.
End PostgresConfiguration.

Module RedisConfiguration.
Record Jobs : Set := { prefix : string; name : string }.
Record t : Set :=
  { url : string; db : number; jobs : Jobs; eventsChannel : string }.
End RedisConfiguration.

Module S3Configuration.
Record t : Set :=
  { endpoint : string;
    accessKey : string;
    secretKey : string;
    bucketName : string;
    region : string }.
End S3Configuration.

Module SmtpConfiguration.
Record From : Set := { email : string; name : string }.
Record t : Set :=
  { host : string; port : number; user : string; password : string;
    from : From }.
End SmtpConfiguration.

(** [AiProvider] is ['openai' | 'google'] for the type checker only: the
    loader casts whatever text the environment holds, so at run time a
    provider tag is a string. *)
Definition AiProvider : Set := string.

Module AiProviderConfiguration.
Record t : Set := { apiKey : string; enabled : option bool }.
End AiProviderConfiguration.

Module AiModelConfiguration.
Record t : Set :=
  { provider : AiProvider; modelName : string; temperature : number }.
End AiModelConfiguration.

(** The keys of [configuration.ai.models]. *)
Inductive Task : Set :=
| queryRewrite | response | rerank | summarization | contextEnhancer
| noContext | intentRecognition | databaseFilter | reasoning
| deepPlanner | deepCritic | deepRerank.

Module ChunkingConfiguration.
Record t : Set :=
  { defaultChunkSize : number;
    defaultOverlap : number;
    enhanceWithContext : bool }.
End ChunkingConfiguration.

Module RetrievalConfiguration.
Record HybridSearch : Set :=
  { semanticSearchWeight : number;
    keywordSearchWeight : number;
    maxResults : number }.
Record t : Set := { hybridSearch : HybridSearch }.
End RetrievalConfiguration.

Module AiConfiguration.
Record Providers : Set :=
  { openai : AiProviderConfiguration.t; google : AiProviderConfiguration.t }.
Module Langfuse.
Record t : Set :=
  { enabled : bool; publicKey : string; secretKey : string; baseUrl : string }.
End Langfuse.
Record Embedding : Set :=
  { provider : AiProvider;
    apiKey : string;
    modelName : string;
    dimensions : number;
    batchSize : number }.
Module DeepSearch.
Record t : Set := { enabled : bool; maxIterations : number }.
End DeepSearch.
Record t : Set :=
  { enabled : bool;
    nodeEmbeddingDelay : number;
    documentEmbeddingDelay : number;
    providers : Providers;
    langfuse : Langfuse.t;
    (** the object [models], read as [models[task]] *)
    models : Task -> AiModelConfiguration.t;
    embedding : Embedding;
    chunking : ChunkingConfiguration.t;
    retrieval : RetrievalConfiguration.t;
    deepSearch : option DeepSearch.t }.
End AiConfiguration.

Record Configuration : Set :=
  { server : ServerConfiguration.t;
    account : AccountConfiguration.t;
    user : UserConfiguration.t;
    postgres : PostgresConfiguration.t;
    redis : RedisConfiguration.t;
    avatarS3 : S3Configuration.t;
    fileS3 : S3Configuration.t;
    smtp : SmtpConfiguration.t;
    ai : AiConfiguration.t }.

(** ** configuration.ts: the settings object read from [process.env] *)

Module Loader.
Section Loader.

(** [process.env] *)
Variable env : gmap string string.

(** The ECMAScript builtins the loader calls. [BigInt] throws a
  [SyntaxError] on text that is no integer literal. *)
Variable parseInt : string -> number.
Variable parseFloat : string -> number.
Variable BigInt : string -> Result Z.

Definition getRequiredEnv (name : string) : Result string :=
match env !! name with
| Some (String c s) => Ok (String c s)
| _ => Throw (Error (name +:+ " is not set"))
end.

Definition getOptionalEnv (name : string) : option string := env !! name.

Definition modelFromEnv (providerVar providerDefault modelVar modelDefault
                       temperatureVar temperatureDefault : string)
: AiModelConfiguration.t :=
{| AiModelConfiguration.provider :=
     orElse (getOptionalEnv providerVar) providerDefault;
   AiModelConfiguration.modelName :=
     orElse (getOptionalEnv modelVar) modelDefault;
   AiModelConfiguration.temperature :=
     parseFloat (orElse (getOptionalEnv temperatureVar) temperatureDefault) |}.

Definition modelsFromEnv (task : Task) : AiModelConfiguration.t :=
match task with
| queryRewrite =>
    modelFromEnv "QUERY_REWRITE_PROVIDER" "openai"
      "QUERY_REWRITE_MODEL" "gpt-4o-mini" "QUERY_REWRITE_TEMPERATURE" "0.3"
| response =>
    modelFromEnv "RESPONSE_PROVIDER" "openai"
      "RESPONSE_MODEL" "gpt-4o-mini" "RESPONSE_TEMPERATURE" "0.3"
| rerank =>
    modelFromEnv "RERANK_PROVIDER" "openai"
      "RERANK_MODEL" "gpt-4o-mini" "RERANK_TEMPERATURE" "0.1"
| summarization =>
    modelFromEnv "SUMMARIZATION_PROVIDER" "openai"
      "SUMMARIZATION_MODEL" "gpt-4o-mini" "SUMMARIZATION_TEMPERATURE" "0.2"
| contextEnhancer =>
    modelFromEnv "CHUNK_CONTEXT_PROVIDER" "openai"
      "CHUNK_CONTEXT_MODEL" "gpt-4o-mini" "CHUNK_CONTEXT_TEMPERATURE" "0.2"
| noContext =>
    modelFromEnv "NO_CONTEXT_PROVIDER" "openai"
      "NO_CONTEXT_MODEL" "gpt-4o-mini" "NO_CONTEXT_TEMPERATURE" "0.5"
| intentRecognition =>
    modelFromEnv "INTENT_RECOGNITION_PROVIDER" "openai"
      "INTENT_RECOGNITION_MODEL" "gpt-4o-mini"
      "INTENT_RECOGNITION_TEMPERATURE" "0.0"
| databaseFilter =>
    modelFromEnv "DATABASE_FILTER_PROVIDER" "openai"
      "DATABASE_FILTER_MODEL" "gpt-4o-mini"
      "DATABASE_FILTER_TEMPERATURE" "0.0"
| reasoning =>
    modelFromEnv "REASONING_PROVIDER" "openai"
      "REASONING_MODEL" "gpt-4o" "REASONING_TEMPERATURE" "0.3"
| deepPlanner =>
    modelFromEnv "DEEP_PLANNER_PROVIDER" "openai"
      "DEEP_PLANNER_MODEL" "o3" "DEEP_PLANNER_TEMPERATURE" "0.3"
| deepCritic =>
    modelFromEnv "DEEP_CRITIC_PROVIDER" "openai"
      "DEEP_CRITIC_MODEL" "o3" "DEEP_CRITIC_TEMPERATURE" "0.0"
| deepRerank =>
    modelFromEnv "DEEP_RERANK_PROVIDER" "google"
      "DEEP_RERANK_MODEL" "gemini-2.5-pro" "DEEP_RERANK_TEMPERATURE" "0.2"
end.

(** The [ai] member of the object literal: every read is optional, so
  building it throws nothing. *)
Definition aiFromEnv : AiConfiguration.t :=
{| AiConfiguration.enabled := isTrue (getOptionalEnv "AI_ENABLED");
   AiConfiguration.nodeEmbeddingDelay :=
     parseInt (orElse (getOptionalEnv "AI_NODE_EMBEDDING_DELAY") "5000");
   AiConfiguration.documentEmbeddingDelay :=
     parseInt (orElse (getOptionalEnv "AI_DOCUMENT_EMBEDDING_DELAY") "10000");
   AiConfiguration.providers :=
     {| AiConfiguration.openai :=
          {| AiProviderConfiguration.apiKey :=
               orElse (getOptionalEnv "OPENAI_API_KEY") "";
             AiProviderConfiguration.enabled :=
               Some (isTrue (getOptionalEnv "OPENAI_ENABLED")) |};
        AiConfiguration.google :=
          {| AiProviderConfiguration.apiKey :=
               orElse (getOptionalEnv "GOOGLE_API_KEY") "";
             AiProviderConfiguration.enabled :=
               Some (isTrue (getOptionalEnv "GOOGLE_ENABLED")) |} |};
   AiConfiguration.langfuse :=
     {| AiConfiguration.Langfuse.enabled :=
          isTrue (getOptionalEnv "LANGFUSE_ENABLED");
        AiConfiguration.Langfuse.publicKey :=
          orElse (getOptionalEnv "LANGFUSE_PUBLIC_KEY") "";
        AiConfiguration.Langfuse.secretKey :=
          orElse (getOptionalEnv "LANGFUSE_SECRET_KEY") "";
        AiConfiguration.Langfuse.baseUrl :=
          orElse (getOptionalEnv "LANGFUSE_BASE_URL")
            "https://cloud.langfuse.com" |};
   AiConfiguration.models := modelsFromEnv;
   AiConfiguration.embedding :=
     {| AiConfiguration.provider :=
          orElse (getOptionalEnv "EMBEDDING_PROVIDER") "openai";
        AiConfiguration.modelName :=
          orElse (getOptionalEnv "EMBEDDING_MODEL") "text-embedding-3-large";
        AiConfiguration.dimensions :=
          parseInt (orElse (getOptionalEnv "EMBEDDING_DIMENSIONS") "2000");
        AiConfiguration.apiKey :=
          orElse (getOptionalEnv "EMBEDDING_API_KEY") "";
        AiConfiguration.batchSize :=
          parseInt (orElse (getOptionalEnv "EMBEDDING_BATCH_SIZE") "50") |};
   AiConfiguration.chunking :=
     {| ChunkingConfiguration.defaultChunkSize :=
          parseInt (orElse (getOptionalEnv "CHUNK_DEFAULT_CHUNK_SIZE") "1000");
        ChunkingConfiguration.defaultOverlap :=
          parseInt (orElse (getOptionalEnv "CHUNK_DEFAULT_OVERLAP") "200");
        ChunkingConfiguration.enhanceWithContext :=
          isTrue (getOptionalEnv "CHUNK_ENHANCE_WITH_CONTEXT") |};
   AiConfiguration.retrieval :=
     {| RetrievalConfiguration.hybridSearch :=
          {| RetrievalConfiguration.semanticSearchWeight :=
               parseFloat
                 (orElse
                    (getOptionalEnv "RETRIEVAL_HYBRID_SEARCH_SEMANTIC_WEIGHT")
                    "0.7");
             RetrievalConfiguration.keywordSearchWeight :=
               parseFloat
                 (orElse
                    (getOptionalEnv "RETRIEVAL_HYBRID_SEARCH_KEYWORD_WEIGHT")
                    "0.3");
             RetrievalConfiguration.maxResults :=
               parseInt
                 (orElse
                    (getOptionalEnv "RETRIEVAL_HYBRID_SEARCH_MAX_RESULTS")
                    "20") |} |};
   AiConfiguration.deepSearch :=
     Some {| AiConfiguration.DeepSearch.enabled :=
               isTrue (getOptionalEnv "DEEP_SEARCH_ENABLED");
             AiConfiguration.DeepSearch.maxIterations :=
               parseInt
                 (orElse (getOptionalEnv "DEEP_SEARCH_MAX_ITERATIONS") "3") |}
|}.

Definition s3FromEnv (endpointVar accessKeyVar secretKeyVar bucketNameVar
                    regionVar : string) : Result S3Configuration.t :=
try! endpoint := getRequiredEnv endpointVar in
try! accessKey := getRequiredEnv accessKeyVar in
try! secretKey := getRequiredEnv secretKeyVar in
try! bucketName := getRequiredEnv bucketNameVar in
try! region := getRequiredEnv regionVar in
Ok {| S3Configuration.endpoint := endpoint;
      S3Configuration.accessKey := accessKey;
      S3Configuration.secretKey := secretKey;
      S3Configuration.bucketName := bucketName;
      S3Configuration.region := region |}.

(** The exported [configuration]: the object literal is evaluated member
  by member in source order, and the first [throw] aborts the module. *)
Definition configuration : Result Configuration :=
try! serverName := getRequiredEnv "SERVER_NAME" in
let server :=
  {| ServerConfiguration.name := serverName;
     ServerConfiguration.avatar := orElse (getOptionalEnv "SERVER_AVATAR") "";
     ServerConfiguration.mode :=
       orElse (getOptionalEnv "SERVER_MODE") "standalone" |} in
let account :=
  {| AccountConfiguration.verificationType :=
       orElse (getOptionalEnv "ACCOUNT_VERIFICATION_TYPE") "manual";
     AccountConfiguration.otpTimeout :=
       parseInt (orElse (getOptionalEnv "ACCOUNT_OTP_TIMEOUT") "600");
     AccountConfiguration.allowGoogleLogin :=
       isTrue (getOptionalEnv "ACCOUNT_ALLOW_GOOGLE_LOGIN") |} in
try! storageLimit :=
  BigInt (orElse (getOptionalEnv "USER_STORAGE_LIMIT") "10737418240") in
try! maxFileSize :=
  BigInt (orElse (getOptionalEnv "USER_MAX_FILE_SIZE") "104857600") in
try! postgresUrl := getRequiredEnv "POSTGRES_URL" in
let postgres :=
  {| PostgresConfiguration.url := postgresUrl;
     PostgresConfiguration.ssl :=
       {| PostgresConfiguration.rejectUnauthorized :=
            match getOptionalEnv "POSTGRES_SSL_REJECT_UNAUTHORIZED" with
            | None => None
            | Some v => Some (isTrue (Some v))
            end;
          PostgresConfiguration.ca := getOptionalEnv "POSTGRES_SSL_CA";
          PostgresConfiguration.key := getOptionalEnv "POSTGRES_SSL_KEY";
          PostgresConfiguration.cert := getOptionalEnv "POSTGRES_SSL_CERT" |}
  |} in
try! redisUrl := getRequiredEnv "REDIS_URL" in
let redis :=
  {| RedisConfiguration.url := redisUrl;
     RedisConfiguration.db := parseInt (orElse (getOptionalEnv "REDIS_DB") "0");
     RedisConfiguration.jobs :=
       {| RedisConfiguration.name :=
            orElse (getOptionalEnv "REDIS_JOBS_QUEUE_NAME") "jobs";
          RedisConfiguration.prefix :=
            orElse (getOptionalEnv "REDIS_JOBS_QUEUE_PREFIX") "colanode" |};
     RedisConfiguration.eventsChannel :=
       orElse (getOptionalEnv "REDIS_EVENTS_CHANNEL") "events" |} in
try! avatarS3 :=
  s3FromEnv "S3_AVATARS_ENDPOINT" "S3_AVATARS_ACCESS_KEY"
    "S3_AVATARS_SECRET_KEY" "S3_AVATARS_BUCKET_NAME" "S3_AVATARS_REGION" in
try! fileS3 :=
  s3FromEnv "S3_FILES_ENDPOINT" "S3_FILES_ACCESS_KEY"
    "S3_FILES_SECRET_KEY" "S3_FILES_BUCKET_NAME" "S3_FILES_REGION" in
try! fromEmail := getRequiredEnv "SMTP_EMAIL_FROM" in
try! fromName := getRequiredEnv "SMTP_EMAIL_FROM_NAME" in
let smtp :=
  {| SmtpConfiguration.host := orElse (getOptionalEnv "SMTP_HOST") "";
     SmtpConfiguration.port :=
       parseInt (orElse (getOptionalEnv "SMTP_PORT") "587");
     SmtpConfiguration.user := orElse (getOptionalEnv "SMTP_USER") "";
     SmtpConfiguration.password := orElse (getOptionalEnv "SMTP_PASSWORD") "";
     SmtpConfiguration.from :=
       {| SmtpConfiguration.email := fromEmail;
          SmtpConfiguration.name := fromName |} |} in
Ok {| server := server;
      account := account;
      user := {| UserConfiguration.storageLimit := storageLimit;
                 UserConfiguration.maxFileSize := maxFileSize |};
      postgres := postgres;
      redis := redis;
      avatarS3 := avatarS3;
      fileS3 := fileS3;
      smtp := smtp;
      ai := aiFromEnv |}.

End Loader.
End Loader.

(** ** The LLM service: data exchanged with the models *)

(** The types below come from [@/types/llm], [@/types/assistant] and
    langchain, which the service imports; their members are those the
    service reads or names in its own signatures. *)

(** A langchain [Document], with the two metadata members the service reads. *)
Module Document.
Record Metadata : Set := { type : string; id : string }.
Record t : Set := { pageContent : string; metadata : Metadata }.
End Document.

(** Modelled from the spec: the type [RewrittenQuery] of [@/types/llm],
    which is not among the sources. The service reads [semanticQuery];
    section 3 of the specification adds the keyword form. *)
Record RewrittenQuery : Set := { semanticQuery : string; keywordQuery : string }.

(** The members of the chain state that [rerankDocuments] reads. *)
Module AssistantChainState.
Record t : Set :=
  { mode : string;
    contextDocuments : list Document.t;
    rewrittenQuery : RewrittenQuery }.
End AssistantChainState.

(** The element type of [rerankDocuments]'s result, as its signature has it. *)
Module RankingEntry.
Record t : Set :=
  { index : number; score : number; type : string; sourceId : string }.
End RankingEntry.

Record RerankedDocuments : Set := { rankings : list RankingEntry.t }.

(** The result type of [generateFinalAnswer], as its signature has it. *)
Module Citation.
Record t : Set := { sourceId : string; quote : string }.
End Citation.

Record CitedAnswer : Set := { answer : string; citations : list Citation.t }.

(** Modelled from the spec: the type [EvaluateAndRefineResult] of
    [@/types/llm], which the sources import but do not contain; section 3
    of the specification gives its members. *)
Record EvaluateAndRefineResult : Set :=
  { sufficient : bool;
    refinedQuery : option RewrittenQuery;
    identifiedGaps : list string }.

(** The chat model clients. [temperature] is absent when the constructor
    is called without it; the key is whatever [providerConfig.apiKey]
    evaluates to. *)
Inductive ChatModel : Set :=
| ChatOpenAI (modelName : string) (temperature : option number)
    (openAIApiKey : option string)
| ChatGoogleGenerativeAI (modelName : string) (temperature : option number)
    (apiKey : option string).

Definition modelTemperature (m : ChatModel) : option number :=
  match m with
  | ChatOpenAI _ t _ => t
  | ChatGoogleGenerativeAI _ t _ => t
  end.

(** The prompt templates of [@/lib/llm-prompts]. *)
Inductive Prompt : Set :=
| queryRewritePrompt | summarizationPrompt | rerankPrompt | answerPrompt
| intentRecognitionPrompt | noContextPrompt | databaseFilterPrompt
| chunkSummarizationPrompt | evaluateAndRefinePrompt.

(** The object handed to [invoke]: member names with their values, in
    source order. *)
Definition PromptInput : Set := list (string * string).

(** What a run does to the outside: it constructs model clients, invokes
    prompt pipelines on them, and (deep search) asks the retrieval
    collaborator for documents. An [Invoked] event is one call of
    [prompt.pipe(model).invoke(input)]; the requests a client puts on the
    wire for one call, its retries included, are the client library's
    and are not events. *)
Inductive Event : Set :=
| Constructed (m : ChatModel)
| Invoked (p : Prompt) (m : ChatModel) (input : PromptInput)
| Retrieved (q : RewrittenQuery).

(** The providers behind [prompt.pipe(model).invoke(input)]. An answer may
    depend on everything that happened before, so the same request can be
    answered differently each time. The structured members are what
    [withStructuredOutput(schema)] yields: a value of the schema's type, or
    a rejection. *)
Record Llm : Type :=
  { completeText :
      list Event -> Prompt -> ChatModel -> PromptInput -> Result string;
    completeRanking :
      list Event -> Prompt -> ChatModel -> PromptInput -> Result RerankedDocuments;
    completeAnswer :
      list Event -> Prompt -> ChatModel -> PromptInput -> Result CitedAnswer;
    completeEvaluation :
      list Event -> Prompt -> ChatModel -> PromptInput
      -> Result EvaluateAndRefineResult }.

(** Computations of the service: they extend the event log and return or
    throw. *)
Definition Program (A : Type) : Type := list Event -> Result A * list Event.

Definition ret {A} (a : A) : Program A := fun log => (Ok a, log).

Definition throw {A} (e : Exception) : Program A := fun log => (Throw e, log).

Definition bind {A B} (c : Program A) (k : A -> Program B) : Program B :=
  fun log =>
    match c log with
    | (Ok a, log') => k a log'
    | (Throw e, log') => (Throw e, log')
    end.

Notation "'let*' x ':=' c 'in' k" := (bind c (fun x => k))
  (at level 10, x name, c at level 100, k at level 200).

(** [new ChatOpenAI({...})] and [new ChatGoogleGenerativeAI({...})] with
    the members the service passes. The constructors are the client
    libraries', which are not among the sources: here a constructor returns
    the client. A constructor that rejects its arguments (an empty key, a
    temperature out of range) is outside the model, so what is proved of a
    call that returns a client, or of a failure before the constructor is
    reached, holds of the service, and nothing is claimed about when a
    constructor accepts. *)
Definition construct (m : ChatModel) : Program ChatModel :=
  fun log => (Ok m, (log ++ [Constructed m])%list).

(** [prompt.pipe(model).invoke(input)]: one call, answered by the
    provider behind the client, or rejected. *)
Definition invoke {A}
    (provider : list Event -> Prompt -> ChatModel -> PromptInput -> Result A)
    (p : Prompt) (m : ChatModel) (input : PromptInput) : Program A :=
  fun log => (provider log p m input, (log ++ [Invoked p m input])%list).

(** ** Property reads on [configuration.ai.providers]

    [providers[tag]] with a tag that is no member of the object yields what
    the prototype chain holds under that name, or [undefined]. *)
Inductive Member : Set :=
| Undefined
| Own (c : AiProviderConfiguration.t)
| Inherited.

Definition objectPrototype : list string :=
  [ "constructor"; "__proto__"; "hasOwnProperty"; "isPrototypeOf";
    "propertyIsEnumerable"; "toLocaleString"; "toString"; "valueOf";
    "__defineGetter__"; "__defineSetter__"; "__lookupGetter__";
    "__lookupSetter__" ].

Definition getProvider (ps : AiConfiguration.Providers) (tag : AiProvider)
  : Member :=
  if String.eqb tag "openai" then Own (AiConfiguration.openai ps)
  else if String.eqb tag "google" then Own (AiConfiguration.google ps)
  else if existsb (String.eqb tag) objectPrototype then Inherited
  else Undefined.

(** [providerConfig.enabled] *)
Definition readEnabled (m : Member) : Program (option bool) :=
  match m with
  | Undefined =>
      throw (TypeError "Cannot read properties of undefined (reading 'enabled')")
  | Own c => ret (AiProviderConfiguration.enabled c)
  | Inherited => ret None
  end.

(** [providerConfig.apiKey], read after [enabled] was *)
Definition readApiKey (m : Member) : option string :=
  match m with
  | Own c => Some (AiProviderConfiguration.apiKey c)
  | _ => None
  end.

(** The argument objects of [generateFinalAnswer] and [evaluateAndRefine],
    and the result of [assessUserIntent]. *)
Record AnswerArgs : Set :=
  { currentTimestamp : string;
    workspaceName : string;
    userName : string;
    userEmail : string;
    formattedChatHistory : string;
    formattedMessages : string;
    formattedDocuments : string;
    question : string }.

Record EvaluateArgs : Set :=
  { query : string; sources : string; chatHistory : string }.

Inductive Intent : Set := retrieve | no_context.

(** ** The LLM service: the functions *)

Section Service.

Variable configuration : Configuration.
Variable llm : Llm.

Definition getChatModel (task : Task) (reasoningModel : bool)
  : Program ChatModel :=
  let modelConfig := AiConfiguration.models (ai configuration) task in
  if negb (AiConfiguration.enabled (ai configuration))
  then throw (Error "AI is disabled.")
  else
    let providerConfig :=
      getProvider (AiConfiguration.providers (ai configuration))
        (AiModelConfiguration.provider modelConfig) in
    let* enabled := readEnabled providerConfig in
    if falsy enabled
    then throw (Error (AiModelConfiguration.provider modelConfig
                       +:+ " provider is disabled."))
    else if String.eqb (AiModelConfiguration.provider modelConfig) "openai"
    then
      if reasoningModel
      then construct (ChatOpenAI (AiModelConfiguration.modelName modelConfig)
                        None (readApiKey providerConfig))
      else construct (ChatOpenAI (AiModelConfiguration.modelName modelConfig)
                        (Some (AiModelConfiguration.temperature modelConfig))
                        (readApiKey providerConfig))
    else if String.eqb (AiModelConfiguration.provider modelConfig) "google"
    then construct (ChatGoogleGenerativeAI
                      (AiModelConfiguration.modelName modelConfig)
                      (Some (AiModelConfiguration.temperature modelConfig))
                      (readApiKey providerConfig))
    else throw (Error ("Unsupported AI provider: "
                       +:+ AiModelConfiguration.provider modelConfig)).

(** One line of the numbered listing built by [rerankDocuments]. *)
Definition formatCandidate (idx : nat) (doc : Document.t) : string :=
  decimal idx +:+ ". Type: " +:+ Document.type (Document.metadata doc)
  +:+ ", Content: " +:+ Document.pageContent doc
  +:+ ", ID: " +:+ Document.id (Document.metadata doc) +:+ newline.

Definition formatContext (documents : list Document.t) : string :=
  String.concat newline (imap formatCandidate documents).

Definition rerankDocuments (state : AssistantChainState.t)
  : Program (list RankingEntry.t) :=
  let deep := String.eqb (AssistantChainState.mode state) "deep_search" in
  let task := if deep then deepRerank else rerank in
  let* model := getChatModel task deep in
  let formattedContext :=
    formatContext (AssistantChainState.contextDocuments state) in
  let query := semanticQuery (AssistantChainState.rewrittenQuery state) in
  let* result :=
    invoke (completeRanking llm) rerankPrompt model
      [("query", query); ("context", formattedContext)] in
  ret (rankings result).

Definition answerInput (promptArgs : AnswerArgs) : PromptInput :=
  [ ("currentTimestamp", currentTimestamp promptArgs);
    ("workspaceName", workspaceName promptArgs);
    ("userName", userName promptArgs);
    ("userEmail", userEmail promptArgs);
    ("formattedChatHistory", formattedChatHistory promptArgs);
    ("formattedMessages", formattedMessages promptArgs);
    ("formattedDocuments", formattedDocuments promptArgs);
    ("question", question promptArgs) ].

Definition generateFinalAnswer (promptArgs : AnswerArgs) : Program CitedAnswer :=
  let* model := getChatModel response false in
  invoke (completeAnswer llm) answerPrompt model (answerInput promptArgs).

Definition generateNoContextAnswer (query chatHistory : string)
  : Program string :=
  let* model := getChatModel noContext false in
  invoke (completeText llm) noContextPrompt model
    [("question", query); ("formattedChatHistory", chatHistory)].

(** The last expression of [assessUserIntent]. *)
Definition intentOf (result : string) : Intent :=
  if String.eqb (toLowerCase (trim result)) "no_context"
  then no_context
  else retrieve.

Definition assessUserIntent (query chatHistory : string) : Program Intent :=
  let* model := getChatModel intentRecognition false in
  let* result :=
    invoke (completeText llm) intentRecognitionPrompt model
      [("question", query); ("formattedChatHistory", chatHistory)] in
  ret (intentOf result).

Definition evaluateAndRefine (args : EvaluateArgs)
  : Program EvaluateAndRefineResult :=
  let* model := getChatModel deepPlanner true in
  invoke (completeEvaluation llm) evaluateAndRefinePrompt model
    [ ("query", query args);
      ("sources", sources args);
      ("chatHistory", chatHistory args) ].

End Service.

(** ** The LLM service: the remaining functions *)

(** The argument of [generateDatabaseFilters]: a database with its fields
    ([Record<string, { type; name }>], held as the entries
    [Object.entries] yields, in its order) and sample records. A record
    holds the entries of [record.attributes.fields], each value as the
    template literal renders it. *)
Module DatabaseField.
Record t : Set := { type : string; name : string }.
End DatabaseField.

Module RecordNode.
Record t : Set := { fields : list (string * string) }.
End RecordNode.

Module Database.
Record t : Set :=
  { id : string;
    name : string;
    fields : list (string * DatabaseField.t);
    sampleRecords : list RecordNode.t }.
End Database.

(** An own member of [db.fields]. *)
Fixpoint ownField (fields : list (string * DatabaseField.t)) (key : string)
  : option DatabaseField.t :=
  match fields with
  | [] => None
  | (k, field) :: rest => if String.eqb k key then Some field else ownField rest key
  end.

(** [`${db.fields[fieldId]?.name}`]: the name of the own member; for a key
    found on the prototype chain the [name] of what is found there
    ([Object] for [constructor], nothing for [__proto__], the method's own
    name otherwise); [undefined] for any other key. *)
Definition fieldLabel (fields : list (string * DatabaseField.t)) (fieldId : string)
  : string :=
  match ownField fields fieldId with
  | Some field => DatabaseField.name field
  | None =>
      if String.eqb fieldId "constructor" then "Object"
      else if String.eqb fieldId "__proto__" then "undefined"
      else if existsb (String.eqb fieldId) objectPrototype then fieldId
      else "undefined"
  end.

Definition renderField (entry : string * DatabaseField.t) : string :=
  "- " +:+ DatabaseField.name (snd entry) +:+ " (ID: " +:+ fst entry
  +:+ ", Type: " +:+ DatabaseField.type (snd entry) +:+ ")".

Definition renderCell (db : Database.t) (entry : string * string) : string :=
  fieldLabel (Database.fields db) (fst entry) +:+ ": " +:+ snd entry.

Definition renderRecord (db : Database.t) (i : nat) (record : RecordNode.t)
  : string :=
  decimal (i + 1) +:+ ". "
  +:+ String.concat ", " (map (renderCell db) (RecordNode.fields record)).

Definition renderDatabase (db : Database.t) : string :=
  newline +:+ "Database: " +:+ Database.name db
  +:+ " (ID: " +:+ Database.id db +:+ ")" +:+ newline
  +:+ "Fields:" +:+ newline
  +:+ String.concat newline (map renderField (Database.fields db)) +:+ newline
  +:+ newline
  +:+ "Sample Records:" +:+ newline
  +:+ String.concat newline (imap (renderRecord db) (Database.sampleRecords db))
  +:+ newline.

Definition databasesInfo (databases : list Database.t) : string :=
  String.concat (newline +:+ newline) (map renderDatabase databases).

Section ServiceRest.

Variable configuration : Configuration.
Variable llm : Llm.

(** The result type of the filter planner ([DatabaseFilterResult] of
    [@/types/llm]), which the service only passes on, and the providers
    behind the two structured calls of this section. *)
Variable DatabaseFilterResult : Type.
Variable completeRewrite :
  list Event -> Prompt -> ChatModel -> PromptInput -> Result RewrittenQuery.
Variable completeFilters :
  list Event -> Prompt -> ChatModel -> PromptInput -> Result DatabaseFilterResult.

(** [chatHistory: string = ''] *)
Definition rewriteQuery (query : string) (chatHistory : option string)
  : Program RewrittenQuery :=
  let* model := getChatModel configuration queryRewrite false in
  invoke completeRewrite queryRewritePrompt model
    [("query", query); ("chatHistory", default "" chatHistory)].

Definition summarizeDocument (document : Document.t) (query : string)
  : Program string :=
  let* model := getChatModel configuration summarization false in
  invoke (completeText llm) summarizationPrompt model
    [("text", Document.pageContent document); ("query", query)].

Definition generateDatabaseFilters (query : string) (databases : list Database.t)
  : Program DatabaseFilterResult :=
  let* model := getChatModel configuration databaseFilter false in
  invoke completeFilters databaseFilterPrompt model
    [("query", query); ("databasesInfo", databasesInfo databases)].

(** [fullText: string = ''] *)
Definition enrichChunk (chunk : string) (fullText : option string)
    (nodeType : string) : Program string :=
  let* model := getChatModel configuration contextEnhancer false in
  invoke (completeText llm) chunkSummarizationPrompt model
    [ ("chunk", chunk);
      ("fullText", default "" fullText);
      ("nodeType", nodeType) ].

End ServiceRest.

(** ** The Deep-Search Controller *)

Module DeepSearch.

(** [k >= x] of JavaScript for an integer counter [k] and a double [x],
    as [maxIterations] is one ([parseInt] yields a double): the exact
    comparison of the two values, [false] when [x] is [NaN]. *)
Definition atLeast (k : Z) (x : number) : bool :=
  match Prim2SF x with
  | S754_nan => false
  | S754_zero _ => (0 <=? k)%Z
  | S754_infinity negative => negative
  | S754_finite negative m e =>
      let v := if negative then Z.neg m else Z.pos m in
      if (0 <=? e)%Z then (v * 2 ^ e <=? k)%Z else (v <=? k * 2 ^ (- e))%Z
  end.

(** Modelled from the spec: the states of the controller (section 4.6). *)
Inductive State : Set := RETRIEVE | EVALUATE | REFINE | DONE.

(** Modelled from the spec: the run of one deep-search turn (section 3,
    PipelineRun); the controller that drives it is not among the sources.
    [queries] is the history of rewritten queries, the active one first;
    [refinement] holds the refined query between EVALUATE and REFINE. *)
Record PipelineRun : Set :=
  { state : State;
    queries : list RewrittenQuery;
    activeQuery : RewrittenQuery;
    ranked : list RankingEntry.t;
    iteration : Z;
    refinement : option RewrittenQuery }.

Section Controller.

Variable configuration : Configuration.
Variable llm : Llm.

(** The retrieval collaborator, and the rendering of the accumulated
    sources handed to the planner: both external to the controller. *)
Variable search : list Event -> RewrittenQuery -> list Document.t.
Variable sourcesText : list RankingEntry.t -> string.

(** The turn's question and history. *)
Variable userQuery : string.
Variable history : string.

(** Modelled from the spec: "the iteration counter has reached
    [maxIterations]" (section 4.6), for the bound the settings object holds,
    [configuration.ai.deepSearch?.maxIterations]. Without a [deepSearch]
    member the counter is compared with [undefined], which it never
    reaches. *)
Definition reachedMaxIterations (iteration : Z) : bool :=
  match AiConfiguration.deepSearch (ai configuration) with
  | Some settings =>
      atLeast iteration (AiConfiguration.DeepSearch.maxIterations settings)
  | None => false
  end.

(** Modelled from the spec: a call of the retrieval collaborator
    (section 6), recorded as one retrieval pass. *)
Definition retrieveDocuments (q : RewrittenQuery) : Program (list Document.t) :=
  fun log => (Ok (search log q), (log ++ [Retrieved q])%list).

(** Modelled from the spec: the initial state of section 4.6. The first
    retrieval pass is iteration 1, as in the scenario of section 8
    (three passes under [maxIterations = 3]). *)
Definition start (q : RewrittenQuery) : PipelineRun :=
  {| state := RETRIEVE;
     queries := [q];
     activeQuery := q;
     ranked := [];
     iteration := 1;
     refinement := None |}.

(** Modelled from the spec: one transition of the state machine of
    section 4.6. RETRIEVE calls the collaborator and the reranker and
    appends the batch; EVALUATE calls [evaluateAndRefine] and stops when
    the evidence is sufficient, the counter has reached [maxIterations],
    or no refined query came back; REFINE adopts the refined query and
    increments the counter; DONE is terminal. *)
Definition step (run : PipelineRun) : Program PipelineRun :=
  match state run with
  | RETRIEVE =>
      let* documents := retrieveDocuments (activeQuery run) in
      let* batch :=
        rerankDocuments configuration llm
          {| AssistantChainState.mode := "deep_search";
             AssistantChainState.contextDocuments := documents;
             AssistantChainState.rewrittenQuery := activeQuery run |} in
      ret {| state := EVALUATE;
             queries := queries run;
             activeQuery := activeQuery run;
             ranked := (ranked run ++ batch)%list;
             iteration := iteration run;
             refinement := None |}
  | EVALUATE =>
      let* verdict :=
        evaluateAndRefine configuration llm
          {| query := userQuery;
             sources := sourcesText (ranked run);
             chatHistory := history |} in
      match refinedQuery verdict with
      | Some refined =>
          if sufficient verdict || reachedMaxIterations (iteration run)
          then ret {| state := DONE;
                      queries := queries run;
                      activeQuery := activeQuery run;
                      ranked := ranked run;
                      iteration := iteration run;
                      refinement := None |}
          else ret {| state := REFINE;
                      queries := queries run;
                      activeQuery := activeQuery run;
                      ranked := ranked run;
                      iteration := iteration run;
                      refinement := Some refined |}
      | None =>
          ret {| state := DONE;
                 queries := queries run;
                 activeQuery := activeQuery run;
                 ranked := ranked run;
                 iteration := iteration run;
                 refinement := None |}
      end
  | REFINE =>
      match refinement run with
      | Some refined =>
          ret {| state := RETRIEVE;
                 queries := refined :: queries run;
                 activeQuery := refined;
                 ranked := ranked run;
                 iteration := (iteration run + 1)%Z;
                 refinement := None |}
      | None =>
          ret {| state := DONE;
                 queries := queries run;
                 activeQuery := activeQuery run;
                 ranked := ranked run;
                 iteration := iteration run;
                 refinement := None |}
      end
  | DONE => ret run
  end.

(** Modelled from the spec: the controller loop, transitions until DONE.
    [None] is a run cut short by the step budget [fuel]. *)
Fixpoint drive (fuel : nat) (run : PipelineRun) : Program (option PipelineRun) :=
  match state run with
  | DONE => ret (Some run)
  | _ =>
      match fuel with
      | O => ret None
      | S fuel' => let* run' := step run in drive fuel' run'
      end
  end.

(** Modelled from the spec: a deep-search turn on the first rewritten
    query. *)
Definition deepSearch (fuel : nat) (q : RewrittenQuery)
  : Program (option PipelineRun) :=
  drive fuel (start q).

End Controller.

(** The retrieval passes recorded in an event log. *)
Definition isRetrieval (e : Event) : bool :=
  match e with
  | Retrieved _ => true
  | _ => false
  end.

Definition passes (log : list Event) : nat :=
  length (List.filter isRetrieval log).

End DeepSearch.

(** ** A concrete deployment, for closed examples *)

Module Sample.

(** The builtins at the texts the sample environment and the loader's
    defaults hold: the doubles closest to the decimals, [NaN] for text
    that is no number. *)
Definition parseInt (s : string) : number :=
  if String.eqb s "0" then 0%float
  else if String.eqb s "2" then 2%float
  else if String.eqb s "3" then 3%float
  else if String.eqb s "20" then 20%float
  else if String.eqb s "50" then 50%float
  else if String.eqb s "200" then 200%float
  else if String.eqb s "587" then 587%float
  else if String.eqb s "600" then 600%float
  else if String.eqb s "1000" then 1000%float
  else if String.eqb s "2000" then 2000%float
  else if String.eqb s "5000" then 5000%float
  else if String.eqb s "10000" then 10000%float
  else PrimFloat.nan.

Definition parseFloat (s : string) : number :=
  if String.eqb s "0.0" then 0%float
  else if String.eqb s "0.1" then 0x1.999999999999ap-4%float
  else if String.eqb s "0.2" then 0x1.999999999999ap-3%float
  else if String.eqb s "0.3" then 0x1.3333333333333p-2%float
  else if String.eqb s "0.5" then 0.5%float
  else if String.eqb s "0.7" then 0x1.6666666666666p-1%float
  else PrimFloat.nan.

Definition BigInt (s : string) : Result Z :=
  if String.eqb s "10737418240" then Ok 10737418240%Z
  else if String.eqb s "104857600" then Ok 104857600%Z
  else Throw (SyntaxError ("Cannot convert " +:+ s +:+ " to a BigInt")).

Definition required : list (string * string) :=
  [ ("SERVER_NAME", "colanode");
    ("POSTGRES_URL", "postgres://db");
    ("REDIS_URL", "redis://cache");
    ("S3_AVATARS_ENDPOINT", "http://s3");
    ("S3_AVATARS_ACCESS_KEY", "key");
    ("S3_AVATARS_SECRET_KEY", "secret");
    ("S3_AVATARS_BUCKET_NAME", "avatars");
    ("S3_AVATARS_REGION", "eu");
    ("S3_FILES_ENDPOINT", "http://s3");
    ("S3_FILES_ACCESS_KEY", "key");
    ("S3_FILES_SECRET_KEY", "secret");
    ("S3_FILES_BUCKET_NAME", "files");
    ("S3_FILES_REGION", "eu");
    ("SMTP_EMAIL_FROM", "noreply@colanode.test");
    ("SMTP_EMAIL_FROM_NAME", "Colanode") ].

Definition envOf (settings : list (string * string)) : gmap string string :=
  list_to_map (settings ++ required)%list.

Definition load (settings : list (string * string)) : Result Configuration :=
  Loader.configuration (envOf settings) parseInt parseFloat BigInt.

(** The settings object [load] yields: the members outside [ai] as the
    loader builds them from [required], and [ai] from the environment. *)
Definition settingsOf (settings : list (string * string)) : Configuration :=
  {| server := {| ServerConfiguration.name := "colanode";
                  ServerConfiguration.avatar := "";
                  ServerConfiguration.mode := "standalone" |};
     account := {| AccountConfiguration.verificationType := "manual";
                   AccountConfiguration.otpTimeout := 600%float;
                   AccountConfiguration.allowGoogleLogin := false |};
     user := {| UserConfiguration.storageLimit := 10737418240;
                UserConfiguration.maxFileSize := 104857600 |};
     postgres :=
       {| PostgresConfiguration.url := "postgres://db";
          PostgresConfiguration.ssl :=
            {| PostgresConfiguration.rejectUnauthorized := None;
               PostgresConfiguration.ca := None;
               PostgresConfiguration.key := None;
               PostgresConfiguration.cert := None |} |};
     redis := {| RedisConfiguration.url := "redis://cache";
                 RedisConfiguration.db := 0%float;
                 RedisConfiguration.jobs :=
                   {| RedisConfiguration.prefix := "colanode";
                      RedisConfiguration.name := "jobs" |};
                 RedisConfiguration.eventsChannel := "events" |};
     avatarS3 := {| S3Configuration.endpoint := "http://s3";
                    S3Configuration.accessKey := "key";
                    S3Configuration.secretKey := "secret";
                    S3Configuration.bucketName := "avatars";
                    S3Configuration.region := "eu" |};
     fileS3 := {| S3Configuration.endpoint := "http://s3";
                  S3Configuration.accessKey := "key";
                  S3Configuration.secretKey := "secret";
                  S3Configuration.bucketName := "files";
                  S3Configuration.region := "eu" |};
     smtp := {| SmtpConfiguration.host := "";
                SmtpConfiguration.port := 587%float;
                SmtpConfiguration.user := "";
                SmtpConfiguration.password := "";
                SmtpConfiguration.from :=
                  {| SmtpConfiguration.email := "noreply@colanode.test";
                     SmtpConfiguration.name := "Colanode" |} |};
     ai := Loader.aiFromEnv (envOf settings) parseInt parseFloat |}.

(** AI on, both providers on, every other setting at its default. *)
Definition allOn : Configuration :=
  settingsOf [ ("AI_ENABLED", "true"); ("OPENAI_ENABLED", "true");
               ("OPENAI_API_KEY", "sk-openai");
               ("GOOGLE_ENABLED", "true"); ("GOOGLE_API_KEY", "g-key") ].

(** AI on, the Google provider left off. *)
Definition googleOff : Configuration :=
  settingsOf [ ("AI_ENABLED", "true"); ("OPENAI_ENABLED", "true");
               ("OPENAI_API_KEY", "sk-openai") ].

(** The flag spelled in capitals. *)
Definition shouting : list (string * string) :=
  [ ("AI_ENABLED", "TRUE"); ("OPENAI_ENABLED", "true") ].

(** A provider tag the service does not know. *)
Definition unknownProvider : Configuration :=
  settingsOf [ ("AI_ENABLED", "true"); ("OPENAI_ENABLED", "true");
               ("RERANK_PROVIDER", "anthropic") ].

End Sample.

(** ** Vocabulary of the properties *)

(** The task and flag [rerankDocuments] resolves its model with. *)
Definition rerankTask (state : AssistantChainState.t) : Task :=
  if String.eqb (AssistantChainState.mode state) "deep_search"
  then deepRerank else rerank.

Definition rerankReasoning (state : AssistantChainState.t) : bool :=
  String.eqb (AssistantChainState.mode state) "deep_search".

(** The object [rerankDocuments] hands to [invoke]. *)
Definition rerankInput (state : AssistantChainState.t) : PromptInput :=
  [ ("query", semanticQuery (AssistantChainState.rewrittenQuery state));
    ("context", formatContext (AssistantChainState.contextDocuments state)) ].

(** The property of section 8 for a ranking over [candidates] candidates
    under the cap [maxResults]: every index is a position of a candidate,
    no index occurs twice, and the cap bounds the length. *)
Definition indexInRange (candidates : nat) (index : number) : bool :=
  PrimFloat.leb 0 index && PrimFloat.ltb index (number_of_nat candidates).

Definition wellRanked (maxResults : number) (candidates : nat)
    (ranking : list RankingEntry.t) : Prop :=
  Forall (fun entry => indexInRange candidates (RankingEntry.index entry) = true)
    ranking
  /\ NoDup (map RankingEntry.index ranking)
  /\ PrimFloat.leb (number_of_nat (length ranking)) maxResults = true.

Definition maxResultsOf (cfg : Configuration) : number :=
  RetrievalConfiguration.maxResults
    (RetrievalConfiguration.hybridSearch (AiConfiguration.retrieval (ai cfg))).

(** A ranking model that answers every request with the same ranking. *)
Definition answering (ranking : list RankingEntry.t) (cited : CitedAnswer)
    (text : string) (verdict : EvaluateAndRefineResult) : Llm :=
  {| completeText := fun _ _ _ _ => Ok text;
     completeRanking := fun _ _ _ _ => Ok {| rankings := ranking |};
     completeAnswer := fun _ _ _ _ => Ok cited;
     completeEvaluation := fun _ _ _ _ => Ok verdict |}.

Definition noAnswer : CitedAnswer := {| answer := ""; citations := [] |}.

Definition enough : EvaluateAndRefineResult :=
  {| sufficient := true; refinedQuery := None; identifiedGaps := [] |}.

Definition rankingOnly (ranking : list RankingEntry.t) : Llm :=
  answering ranking noAnswer "" enough.

Definition entry (index score : number) (sourceId : string) : RankingEntry.t :=
  {| RankingEntry.index := index;
     RankingEntry.score := score;
     RankingEntry.type := "document";
     RankingEntry.sourceId := sourceId |}.

Definition document (id content : string) : Document.t :=
  {| Document.pageContent := content;
     Document.metadata := {| Document.type := "document"; Document.id := id |} |}.

(** One candidate on the refund policy, asked for in plain retrieval. *)
Definition refundState (keywords : string) : AssistantChainState.t :=
  {| AssistantChainState.mode := "retrieve";
     AssistantChainState.contextDocuments :=
       [document "doc1" "Refunds within 30 days."];
     AssistantChainState.rewrittenQuery :=
       {| semanticQuery := "What is our refund policy?";
          keywordQuery := keywords |} |}.

(** The inputs of the requests an event log records, oldest first. *)
Definition requestsOf (log : list Event) : list PromptInput :=
  omap (fun e => match e with
                 | Invoked _ _ input => Some input
                 | _ => None
                 end) log.

(** The hybrid relevance signal of a configuration. *)
Definition hybridWeights (cfg : Configuration) : number * number :=
  let h := RetrievalConfiguration.hybridSearch (AiConfiguration.retrieval (ai cfg)) in
  (RetrievalConfiguration.semanticSearchWeight h,
   RetrievalConfiguration.keywordSearchWeight h).

(** Every citation names the source id of one of [documents]. *)
Definition citesOnly (documents : list Document.t) (a : CitedAnswer) : Prop :=
  Forall (fun c =>
            In (Citation.sourceId c)
               (map (fun d => Document.id (Document.metadata d)) documents))
    (citations a).

Definition answerOnly (cited : CitedAnswer) : Llm :=
  answering [] cited "" enough.


(** The arguments of a final answer over [documents], rendered as the
    reranker's listing renders them. *)
Definition refundArgs (documents : list Document.t) : AnswerArgs :=
  {| currentTimestamp := "2025-01-01T00:00:00Z";
     workspaceName := "Acme";
     userName := "Ada";
     userEmail := "ada@acme.test";
     formattedChatHistory := "";
     formattedMessages := "";
     formattedDocuments := formatContext documents;
     question := "What is our refund policy?" |}.






(** White space only, and no white space at the front. *)
Fixpoint allWhiteSpace (s : string) : bool :=
  match s with
  | String c s' => isWhiteSpace c && allWhiteSpace s'
  | EmptyString => true
  end.

Definition startsClean (s : string) : Prop :=
  match s with
  | String c _ => isWhiteSpace c = false
  | EmptyString => True
  end.

(** A planner that is never satisfied and always proposes another query,
    and one that is satisfied from the third retrieval pass on. *)
Definition refinedTo (text : string) : RewrittenQuery :=
  {| semanticQuery := text; keywordQuery := text |}.

Definition insatiable : Llm :=
  {| completeText := fun _ _ _ _ => Ok "";
     completeRanking := fun _ _ _ _ => Ok {| rankings := [entry 0 0.5 "doc1"] |};
     completeAnswer := fun _ _ _ _ => Ok noAnswer;
     completeEvaluation := fun _ _ _ _ =>
       Ok {| sufficient := false;
             refinedQuery := Some (refinedTo "refund policy details");
             identifiedGaps := ["time limit"] |} |}.

Definition satisfiedAfter (n : nat) : Llm :=
  {| completeText := fun _ _ _ _ => Ok "";
     completeRanking := fun _ _ _ _ => Ok {| rankings := [entry 0 0.5 "doc1"] |};
     completeAnswer := fun _ _ _ _ => Ok noAnswer;
     completeEvaluation := fun log _ _ _ =>
       if (n <=? DeepSearch.passes log)%nat
       then Ok enough
       else Ok {| sufficient := false;
                  refinedQuery := Some (refinedTo "refund policy details");
                  identifiedGaps := ["time limit"] |} |}.

(** A planner that is not satisfied and proposes nothing. *)
Definition speechless : Llm :=
  answering [entry 0 0.5 "doc1"] noAnswer ""
    {| sufficient := false; refinedQuery := None; identifiedGaps := [] |}.

Definition oneDocument (log : list Event) (q : RewrittenQuery) : list Document.t :=
  [document "doc1" "Refunds within 30 days."].

Definition sourceIds (ranked : list RankingEntry.t) : string :=
  String.concat ", " (map RankingEntry.sourceId ranked).

(** A deep-search turn on the refund question. *)
Definition refundSearch (cfg : Configuration) (llm : Llm) (fuel : nat)
  : Program (option DeepSearch.PipelineRun) :=
  DeepSearch.deepSearch cfg llm oneDocument sourceIds
    "What is our refund policy?" "" fuel (refinedTo "refund policy").

(** The sample deployment with [DEEP_SEARCH_MAX_ITERATIONS=2]. *)
Definition twoIterations : Configuration :=
  Sample.settingsOf [ ("AI_ENABLED", "true"); ("OPENAI_ENABLED", "true");
                      ("OPENAI_API_KEY", "sk-openai");
                      ("GOOGLE_ENABLED", "true"); ("GOOGLE_API_KEY", "g-key");
                      ("DEEP_SEARCH_MAX_ITERATIONS", "2") ].

(** The integer a double is, if it is one: [None] for [NaN], the
    infinities and a value with a fractional part. *)
Definition integerValue (x : number) : option Z :=
  match Prim2SF x with
  | S754_zero _ => Some 0%Z
  | S754_finite negative m e =>
      let v := if negative then Z.neg m else Z.pos m in
      if (0 <=? e)%Z then Some (v * 2 ^ e)%Z
      else if (v mod 2 ^ (- e) =? 0)%Z then Some (v / 2 ^ (- e))%Z
      else None
  | _ => None
  end.





(** The variables the loader reads with [getRequiredEnv], in source order,
    and the four it hands on as they are. *)
Definition requiredVariables : list string :=
  [ "SERVER_NAME"; "POSTGRES_URL"; "REDIS_URL";
    "S3_AVATARS_ENDPOINT"; "S3_AVATARS_ACCESS_KEY"; "S3_AVATARS_SECRET_KEY";
    "S3_AVATARS_BUCKET_NAME"; "S3_AVATARS_REGION";
    "S3_FILES_ENDPOINT"; "S3_FILES_ACCESS_KEY"; "S3_FILES_SECRET_KEY";
    "S3_FILES_BUCKET_NAME"; "S3_FILES_REGION";
    "SMTP_EMAIL_FROM"; "SMTP_EMAIL_FROM_NAME" ].

Definition sslVariables : list string :=
  [ "POSTGRES_SSL_REJECT_UNAUTHORIZED"; "POSTGRES_SSL_CA";
    "POSTGRES_SSL_KEY"; "POSTGRES_SSL_CERT" ].

(** The variable holds a non-empty text. *)
Definition isSet (env : gmap string string) (name : string) : bool :=
  match env !! name with
  | Some (String _ _) => true
  | _ => false
  end.

(** What one call of a service function bound to [task], [reasoningModel],
    the template [p] and the request [input] comes to, from the log [log]:
    model resolution throws, and the call throws the same exception with
    the log as it was; or a client is resolved, and the log gains that
    client followed by one invocation of [p] through it on [input]. *)
Definition oneInvocation {A} (cfg : Configuration) (task : Task)
    (reasoningModel : bool) (p : Prompt) (input : PromptInput)
    (log : list Event) (out : Result A * list Event) : Prop :=
  (exists e,
      getChatModel cfg task reasoningModel log = (Throw e, log)
      /\ out = (Throw e, log))
  \/ (exists m,
         getChatModel cfg task reasoningModel log
         = (Ok m, (log ++ [Constructed m])%list)
         /\ snd out = (log ++ [Constructed m; Invoked p m input])%list).

(** A database of contacts with two fields and one sample record, which
    also holds a value under an id the database does not have. *)
Definition contacts : Database.t :=
  {| Database.id := "db1";
     Database.name := "Contacts";
     Database.fields :=
       [ ("f1", {| DatabaseField.type := "text"; DatabaseField.name := "Name" |});
         ("f2", {| DatabaseField.type := "email"; DatabaseField.name := "Email" |}) ];
     Database.sampleRecords :=
       [ {| RecordNode.fields := [("f1", "Ada"); ("f9", "42")] |} ] |}.

(** * Properties *)

(** ** The loader *)

Lemma getRequiredEnv_Ok env name v :
  Loader.getRequiredEnv env name = Ok v -> env !! name = Some v /\ v <> "".
Proof.
  unfold Loader.getRequiredEnv.
  destruct (env !! name) as [[|c s]|]; intros H; inversion H; subst.
  split; [reflexivity | discriminate].
Qed.

(** Whatever else the environment holds, a module that loads has built its
    [ai] member with [aiFromEnv]. *)
Lemma configuration_ai env parseInt parseFloat BigInt cfg :
  Loader.configuration env parseInt parseFloat BigInt = Ok cfg ->
  ai cfg = Loader.aiFromEnv env parseInt parseFloat.
Proof.
  unfold Loader.configuration, Loader.s3FromEnv, bindR.
  repeat match goal with
         | |- context [match ?r with Ok _ => _ | Throw _ => _ end] =>
             destruct r; try discriminate
         end.
  intros H. inversion H. reflexivity.
Qed.

Lemma isTrue_spec (a : option string) : isTrue a = true <-> a = Some "true".
Proof. unfold isTrue. apply bool_decide_eq_true. Qed.

Example load_all_on :
  Sample.load [ ("AI_ENABLED", "true"); ("OPENAI_ENABLED", "true");
                ("OPENAI_API_KEY", "sk-openai");
                ("GOOGLE_ENABLED", "true"); ("GOOGLE_API_KEY", "g-key") ]
  = Ok Sample.allOn.
Proof. vm_compute. reflexivity. Qed.

Example load_shouting : Sample.load Sample.shouting = Ok (Sample.settingsOf Sample.shouting).
Proof. vm_compute. reflexivity. Qed.

(** A missing required variable aborts the module with the source's message. *)
Example load_without_server_name :
  Loader.configuration ∅ Sample.parseInt Sample.parseFloat Sample.BigInt
  = Throw (Error "SERVER_NAME is not set").
Proof. vm_compute. reflexivity. Qed.

(** ** Model resolution: [getChatModel] *)

(** The guard at the top of [getChatModel]. *)
Lemma getChatModel_off cfg task reasoningModel log :
  AiConfiguration.enabled (ai cfg) = false ->
  getChatModel cfg task reasoningModel log = (Throw (Error "AI is disabled."), log).
Proof.
  intros Hoff. unfold getChatModel. rewrite Hoff. reflexivity.
Qed.

(** C4: with the global flag [configuration.ai.enabled] off, [getChatModel]
    throws [Error('AI is disabled.')] for every task and either value of the
    reasoning flag, whatever the providers table and the task's provider tag
    are (so before the provider is looked up), and the event log is left as
    it was: no client is constructed and nothing is sent. *)
Theorem getChatModel_ai_disabled
    (cfg : Configuration) (task : Task) (reasoningModel : bool)
    (log : list Event) :
  AiConfiguration.enabled (ai cfg) = false ->
  getChatModel cfg task reasoningModel log = (Throw (Error "AI is disabled."), log).
Proof.
  intros Hoff. unfold getChatModel.
  destruct (AiConfiguration.enabled (ai cfg)); [discriminate Hoff|].
  reflexivity.
Qed.

Lemma getChatModel_ai_disabled_witness :
  getChatModel (Sample.settingsOf Sample.shouting) rerank false []
  = (Throw (Error "AI is disabled."), []).
Proof.
  apply (getChatModel_ai_disabled (Sample.settingsOf Sample.shouting) rerank false []).
  vm_compute. reflexivity.
Defined.

(** The flag decides alone: the same deployment with an unknown provider
    tag, whose lookup would fail, still reports the disabled feature. *)
Example ai_disabled_precedes_lookup :
  getChatModel
    (Sample.settingsOf [("AI_ENABLED", "false"); ("RERANK_PROVIDER", "anthropic")])
    rerank false []
  = (Throw (Error "AI is disabled."), []).
Proof. vm_compute. reflexivity. Qed.

(** C5: with AI on, a task whose provider is a member of the providers
    table with [enabled = false] makes [getChatModel] throw
    [Error(`${provider} provider is disabled.`)], and the event log is left
    as it was: no client is constructed and nothing is sent. *)
Theorem getChatModel_provider_disabled
    (cfg : Configuration) (task : Task) (reasoningModel : bool)
    (log : list Event) (providerConfig : AiProviderConfiguration.t) :
  AiConfiguration.enabled (ai cfg) = true ->
  getProvider (AiConfiguration.providers (ai cfg))
    (AiModelConfiguration.provider (AiConfiguration.models (ai cfg) task))
  = Own providerConfig ->
  AiProviderConfiguration.enabled providerConfig = Some false ->
  getChatModel cfg task reasoningModel log
  = (Throw (Error (AiModelConfiguration.provider
                     (AiConfiguration.models (ai cfg) task)
                   +:+ " provider is disabled.")), log).
Proof.
  intros Hon Hget Hoff. unfold getChatModel.
  rewrite Hon, Hget. cbn. unfold bind, ret. rewrite Hoff. reflexivity.
Qed.

Lemma getChatModel_provider_disabled_witness :
  getChatModel Sample.googleOff deepRerank true []
  = (Throw (Error "google provider is disabled."), []).
Proof.
  apply (getChatModel_provider_disabled Sample.googleOff deepRerank true []
           {| AiProviderConfiguration.apiKey := "";
              AiProviderConfiguration.enabled := Some false |});
    vm_compute; reflexivity.
Defined.

(** What a successful resolution returns and records. *)
Lemma getChatModel_Ok cfg task reasoningModel log m log' :
  getChatModel cfg task reasoningModel log = (Ok m, log') ->
  let mc := AiConfiguration.models (ai cfg) task in
  log' = (log ++ [Constructed m])%list
  /\ ((AiModelConfiguration.provider mc = "openai"
       /\ modelTemperature m
          = if reasoningModel then None
            else Some (AiModelConfiguration.temperature mc))
      \/ (AiModelConfiguration.provider mc = "google"
          /\ modelTemperature m = Some (AiModelConfiguration.temperature mc))).
Proof.
  unfold getChatModel. cbn zeta.
  destruct (AiConfiguration.enabled (ai cfg)); cbn [negb]; [|discriminate].
  unfold bind.
  destruct (readEnabled _ log) as [[en|e] l] eqn:Hen; [|discriminate].
  assert (l = log) as ->.
  { destruct (getProvider _ _); cbn in Hen; inversion Hen; reflexivity. }
  destruct (falsy en); [discriminate|].
  destruct (String.eqb_spec
              (AiModelConfiguration.provider (AiConfiguration.models (ai cfg) task))
              "openai") as [Hp|Hp].
  - destruct reasoningModel; unfold construct; intros H; inversion H; subst;
      (split; [reflexivity | left; split; [exact Hp | reflexivity]]).
  - destruct (String.eqb_spec
                (AiModelConfiguration.provider (AiConfiguration.models (ai cfg) task))
                "google") as [Hg|Hg]; [|discriminate].
    unfold construct; intros H; inversion H; subst.
    split; [reflexivity | right; split; [exact Hg | reflexivity]].
Qed.

(** C6, as amended: under the reasoning flag the handle omits the
    temperature when the task's provider is [openai]; for [google] the
    handle carries the task's configured temperature, flag or no flag. *)
Theorem getChatModel_reasoning_temperature
    (cfg : Configuration) (task : Task) (log log' : list Event) (m : ChatModel) :
  getChatModel cfg task true log = (Ok m, log') ->
  (AiModelConfiguration.provider (AiConfiguration.models (ai cfg) task) = "openai"
   /\ modelTemperature m = None)
  \/ (AiModelConfiguration.provider (AiConfiguration.models (ai cfg) task) = "google"
      /\ modelTemperature m
         = Some (AiModelConfiguration.temperature
                   (AiConfiguration.models (ai cfg) task))).
Proof.
  intros H. apply getChatModel_Ok in H. cbn zeta in H.
  destruct H as [_ H]. exact H.
Qed.

Lemma getChatModel_reasoning_temperature_witness :
  ("openai" = "openai"
   /\ modelTemperature (ChatOpenAI "o3" None (Some "sk-openai")) = None)
  \/ ("openai" = "google"
      /\ modelTemperature (ChatOpenAI "o3" None (Some "sk-openai"))
         = Some 0x1.3333333333333p-2%float).
Proof.
  apply (getChatModel_reasoning_temperature Sample.allOn deepPlanner []
           [Constructed (ChatOpenAI "o3" None (Some "sk-openai"))]
           (ChatOpenAI "o3" None (Some "sk-openai"))).
  vm_compute. reflexivity.
Defined.

(** C6, as stated, fails: the default deep reranker is a Google model, and
    resolved under the reasoning flag its handle still has a temperature. *)
Lemma getChatModel_reasoning_google_keeps_temperature :
  ~ (forall cfg task log m log',
        getChatModel cfg task true log = (Ok m, log') ->
        modelTemperature m = None).
Proof.
  intros H.
  specialize (H Sample.allOn deepRerank []
                (ChatGoogleGenerativeAI "gemini-2.5-pro"
                   (Some 0x1.999999999999ap-3%float) (Some "g-key"))
                [Constructed (ChatGoogleGenerativeAI "gemini-2.5-pro"
                                (Some 0x1.999999999999ap-3%float) (Some "g-key"))]).
  assert (getChatModel Sample.allOn deepRerank true []
          = (Ok (ChatGoogleGenerativeAI "gemini-2.5-pro"
                   (Some 0x1.999999999999ap-3%float) (Some "g-key")),
             [Constructed (ChatGoogleGenerativeAI "gemini-2.5-pro"
                             (Some 0x1.999999999999ap-3%float) (Some "g-key"))]))
    as Hrun by (vm_compute; reflexivity).
  specialize (H Hrun). discriminate H.
Qed.

(** The tags for which [providers[tag]] finds something on the prototype
    chain. *)
Lemma inherited_tag (tag : string) :
  existsb (String.eqb tag) objectPrototype = true -> In tag objectPrototype.
Proof.
  intros H. apply existsb_exists in H. destruct H as [x [Hin Heq]].
  apply String.eqb_eq in Heq. subst x. exact Hin.
Qed.

(** The [default:] branch of the [switch] is dead code: no configuration,
    task or flag makes [getChatModel] throw the unsupported-provider error.
    The read of [providerConfig.enabled] above the [switch] lets through
    only the two members of the providers table. *)
Lemma getChatModel_unsupported_branch_unreachable
    (cfg : Configuration) (task : Task) (reasoningModel : bool)
    (log : list Event) (tag : string) :
  fst (getChatModel cfg task reasoningModel log)
  <> Throw (Error ("Unsupported AI provider: " +:+ tag)).
Proof.
  unfold getChatModel. cbn zeta.
  destruct (AiConfiguration.enabled (ai cfg)); cbn [negb]; [|cbn; discriminate].
  set (p := AiModelConfiguration.provider (AiConfiguration.models (ai cfg) task)).
  unfold getProvider, bind.
  destruct (String.eqb_spec p "openai") as [Hp|Hp].
  { rewrite Hp. cbn.
    destruct (falsy _); [cbn; discriminate|].
    destruct reasoningModel; cbn; discriminate. }
  destruct (String.eqb_spec p "google") as [Hg|Hg].
  { rewrite Hg. cbn.
    destruct (falsy _); cbn; discriminate. }
  destruct (existsb (String.eqb p) objectPrototype) eqn:Hproto; cbn.
  - apply inherited_tag in Hproto. cbn in Hproto.
    repeat (destruct Hproto as [<-|Hproto]; [cbn; discriminate|]).
    contradiction.
  - discriminate.
Qed.

(** C7, at the failing input: AI on, [RERANK_PROVIDER=anthropic]. The tag
    is no member of [configuration.ai.providers], the lookup yields
    [undefined], and reading [enabled] on it throws a [TypeError]; the
    unsupported-provider error of the [default:] branch is not what the
    caller sees. *)
Theorem getChatModel_unknown_provider_type_error :
  AiModelConfiguration.provider
    (AiConfiguration.models (ai Sample.unknownProvider) rerank) = "anthropic"
  /\ getChatModel Sample.unknownProvider rerank false []
     = (Throw (TypeError "Cannot read properties of undefined (reading 'enabled')"),
        [])
  /\ fst (getChatModel Sample.unknownProvider rerank false [])
     <> Throw (Error "Unsupported AI provider: anthropic").
Proof.
  split; [vm_compute; reflexivity|].
  split; [vm_compute; reflexivity|].
  apply (getChatModel_unsupported_branch_unreachable
           Sample.unknownProvider rerank false [] "anthropic").
Qed.

(** A tag that names a member of [Object.prototype] is reported as a
    disabled provider. *)
Example getChatModel_prototype_tag :
  getChatModel
    (Sample.settingsOf [("AI_ENABLED", "true"); ("RERANK_PROVIDER", "constructor")])
    rerank false []
  = (Throw (Error "constructor provider is disabled."), []).
Proof. vm_compute. reflexivity. Qed.

(** C10: in a module that loaded, [configuration.ai.enabled] is true
    exactly when the environment holds [AI_ENABLED] and its value is the
    string [true]; under any other environment (variable unset, [TRUE],
    [1], ...) every [getChatModel] call, for every task and flag, throws
    [Error('AI is disabled.')] and leaves the event log as it was. *)
Theorem ai_enabled_iff_env_true
    (env : gmap string string) (parseInt parseFloat : string -> number)
    (BigInt : string -> Result Z) (cfg : Configuration) :
  Loader.configuration env parseInt parseFloat BigInt = Ok cfg ->
  (AiConfiguration.enabled (ai cfg) = true <-> env !! "AI_ENABLED" = Some "true")
  /\ (env !! "AI_ENABLED" <> Some "true" ->
      forall task reasoningModel log,
        getChatModel cfg task reasoningModel log
        = (Throw (Error "AI is disabled."), log)).
Proof.
  intros Hload. apply configuration_ai in Hload.
  assert (AiConfiguration.enabled (ai cfg) = true <-> env !! "AI_ENABLED" = Some "true")
    as Hiff.
  { rewrite Hload. cbn. apply isTrue_spec. }
  split; [exact Hiff|].
  intros Hne task reasoningModel log.
  apply getChatModel_off.
  destruct (AiConfiguration.enabled (ai cfg)); [|reflexivity].
  exfalso. apply Hne, Hiff. reflexivity.
Qed.

Lemma ai_enabled_iff_env_true_witness :
  (AiConfiguration.enabled (ai (Sample.settingsOf Sample.shouting)) = true
   <-> Sample.envOf Sample.shouting !! "AI_ENABLED" = Some "true")
  /\ (Sample.envOf Sample.shouting !! "AI_ENABLED" <> Some "true" ->
      forall task reasoningModel log,
        getChatModel (Sample.settingsOf Sample.shouting) task reasoningModel log
        = (Throw (Error "AI is disabled."), log)).
Proof.
  apply (ai_enabled_iff_env_true (Sample.envOf Sample.shouting)
           Sample.parseInt Sample.parseFloat Sample.BigInt
           (Sample.settingsOf Sample.shouting)).
  vm_compute. reflexivity.
Defined.

Example ai_enabled_values :
  AiConfiguration.enabled (ai (Sample.settingsOf [("AI_ENABLED", "true")])) = true
  /\ AiConfiguration.enabled (ai (Sample.settingsOf [("AI_ENABLED", "TRUE")])) = false
  /\ AiConfiguration.enabled (ai (Sample.settingsOf [("AI_ENABLED", "1")])) = false
  /\ AiConfiguration.enabled (ai (Sample.settingsOf [("AI_ENABLED", " true")])) = false
  /\ AiConfiguration.enabled (ai (Sample.settingsOf [])) = false.
Proof. vm_compute. repeat split. Qed.

(** ** The Hybrid Reranker: [rerankDocuments] *)

(** [rerankDocuments] once its model is resolved: one request, and the
    provider's verdict passed on. *)
Lemma rerankDocuments_run cfg llm state log m log1 :
  getChatModel cfg (rerankTask state) (rerankReasoning state) log = (Ok m, log1) ->
  rerankDocuments cfg llm state log
  = (match completeRanking llm log1 rerankPrompt m (rerankInput state) with
     | Ok result => Ok (rankings result)
     | Throw e => Throw e
     end,
     (log1 ++ [Invoked rerankPrompt m (rerankInput state)])%list).
Proof.
  intros Hm. unfold rerankDocuments, rerankTask, rerankReasoning in *. cbn zeta.
  unfold bind at 1. rewrite Hm.
  unfold bind, invoke, ret, rerankInput.
  destruct (completeRanking llm log1 rerankPrompt m _); reflexivity.
Qed.


(** C1, as amended: once the model is resolved and the provider answers,
    [rerankDocuments] returns the ranking the provider proposed, entry for
    entry and in its order (nothing is dropped, de-duplicated or cut to
    [maxResults]), after one request; so the returned ranking has the
    index-range, uniqueness and length properties exactly when the
    provider's ranking has them. *)
Theorem rerankDocuments_returns_proposed_ranking
    (cfg : Configuration) (llm : Llm) (state : AssistantChainState.t)
    (log log1 : list Event) (m : ChatModel) (result : RerankedDocuments) :
  getChatModel cfg (rerankTask state) (rerankReasoning state) log = (Ok m, log1) ->
  completeRanking llm log1 rerankPrompt m (rerankInput state) = Ok result ->
  rerankDocuments cfg llm state log
  = (Ok (rankings result),
     (log1 ++ [Invoked rerankPrompt m (rerankInput state)])%list).
Proof.
  intros Hm Hanswer. rewrite (rerankDocuments_run _ _ _ _ _ _ Hm), Hanswer.
  reflexivity.
Qed.

Lemma rerankDocuments_returns_proposed_ranking_witness :
  rerankDocuments Sample.allOn
    (rankingOnly [entry 7 0.5 "ghost"; entry 7 0.5 "ghost"]) (refundState "refund") []
  = (Ok [entry 7 0.5 "ghost"; entry 7 0.5 "ghost"],
     [ Constructed (ChatOpenAI "gpt-4o-mini" (Some 0x1.999999999999ap-4%float)
                      (Some "sk-openai"));
       Invoked rerankPrompt
         (ChatOpenAI "gpt-4o-mini" (Some 0x1.999999999999ap-4%float)
            (Some "sk-openai"))
         (rerankInput (refundState "refund")) ]).
Proof.
  apply (rerankDocuments_returns_proposed_ranking Sample.allOn
           (rankingOnly [entry 7 0.5 "ghost"; entry 7 0.5 "ghost"])
           (refundState "refund") []
           [Constructed (ChatOpenAI "gpt-4o-mini" (Some 0x1.999999999999ap-4%float)
                           (Some "sk-openai"))]
           (ChatOpenAI "gpt-4o-mini" (Some 0x1.999999999999ap-4%float)
              (Some "sk-openai"))
           {| rankings := [entry 7 0.5 "ghost"; entry 7 0.5 "ghost"] |});
    vm_compute; reflexivity.
Defined.

(** C1, as stated, fails: with one candidate and the default cap of 20, a
    provider that proposes index 7 gets index 7 returned. *)
Lemma rerankDocuments_keeps_out_of_range_index :
  ~ (forall cfg llm state log ranking log',
        rerankDocuments cfg llm state log = (Ok ranking, log') ->
        wellRanked (maxResultsOf cfg)
          (length (AssistantChainState.contextDocuments state)) ranking).
Proof.
  intros H.
  assert (wellRanked (maxResultsOf Sample.allOn) 1 [entry 7 0.5 "ghost"]) as [Hrange _].
  { eapply (H Sample.allOn (rankingOnly [entry 7 0.5 "ghost"])
              (refundState "refund") []).
    vm_compute. reflexivity. }
  inversion Hrange as [|? ? Hin _]. vm_compute in Hin. discriminate Hin.
Qed.

(** Nor is the result cut to the cap or freed of repeated indices: under
    [maxResults = 2] and three candidates, three proposed entries, two of
    them with the same index, all come back. *)
Example rerankDocuments_keeps_excess_and_duplicates :
  let cfg := Sample.settingsOf
               [ ("AI_ENABLED", "true"); ("OPENAI_ENABLED", "true");
                 ("RETRIEVAL_HYBRID_SEARCH_MAX_RESULTS", "2") ] in
  let state :=
    {| AssistantChainState.mode := "retrieve";
       AssistantChainState.contextDocuments :=
         [document "a" "A"; document "b" "B"; document "c" "C"];
       AssistantChainState.rewrittenQuery :=
         {| semanticQuery := "What is our refund policy?"; keywordQuery := "" |} |} in
  let proposed := [entry 0 0.5 "a"; entry 1 0.5 "b"; entry 1 0.25 "b"] in
  maxResultsOf cfg = 2%float
  /\ fst (rerankDocuments cfg (rankingOnly proposed) state []) = Ok proposed.
Proof. vm_compute. split; reflexivity. Qed.

(** C9, as amended: the one request [rerankDocuments] sends carries two
    members, [query] with the semantic form of the rewritten query and
    [context] with the numbered listing of the candidates' type, content
    and source id; neither the configured weights nor the keyword form of
    the query is part of it. *)
Theorem rerankDocuments_request
    (cfg : Configuration) (llm : Llm) (state : AssistantChainState.t)
    (log log1 : list Event) (m : ChatModel) :
  getChatModel cfg (rerankTask state) (rerankReasoning state) log = (Ok m, log1) ->
  snd (rerankDocuments cfg llm state log)
  = (log1 ++
     [Invoked rerankPrompt m
        [ ("query", semanticQuery (AssistantChainState.rewrittenQuery state));
          ("context",
           String.concat newline
             (imap (fun idx doc =>
                      decimal idx +:+ ". Type: "
                      +:+ Document.type (Document.metadata doc)
                      +:+ ", Content: " +:+ Document.pageContent doc
                      +:+ ", ID: " +:+ Document.id (Document.metadata doc)
                      +:+ newline)
                   (AssistantChainState.contextDocuments state))) ]])%list.
Proof.
  intros Hm. rewrite (rerankDocuments_run _ _ _ _ _ _ Hm). reflexivity.
Qed.

Lemma rerankDocuments_request_witness :
  snd (rerankDocuments Sample.allOn (rankingOnly []) (refundState "refund") [])
  = [ Constructed (ChatOpenAI "gpt-4o-mini" (Some 0x1.999999999999ap-4%float)
                     (Some "sk-openai"));
      Invoked rerankPrompt
        (ChatOpenAI "gpt-4o-mini" (Some 0x1.999999999999ap-4%float)
           (Some "sk-openai"))
        [ ("query", "What is our refund policy?");
          ("context",
           "0. Type: document, Content: Refunds within 30 days., ID: doc1"
           +:+ newline) ] ].
Proof.
  apply (rerankDocuments_request Sample.allOn (rankingOnly [])
           (refundState "refund") []
           [Constructed (ChatOpenAI "gpt-4o-mini" (Some 0x1.999999999999ap-4%float)
                           (Some "sk-openai"))]
           (ChatOpenAI "gpt-4o-mini" (Some 0x1.999999999999ap-4%float)
              (Some "sk-openai"))).
  vm_compute. reflexivity.
Defined.

(** Two doubles that a test tells apart are different. *)
Lemma number_neq (test : number -> bool) (x y : number) :
  test x <> test y -> x <> y.
Proof. intros Hne Heq. apply Hne. rewrite Heq. reflexivity. Qed.

(** C9, as stated, fails: two deployments that differ in both weights, asked
    to rerank the same candidates for queries that differ in their keyword
    form, send the ranking model the same request; the request carries
    neither signal. *)
Lemma rerankDocuments_request_ignores_hybrid_signal :
  ~ (forall cfg1 cfg2 llm state1 state2 log,
        requestsOf (snd (rerankDocuments cfg1 llm state1 log))
        = requestsOf (snd (rerankDocuments cfg2 llm state2 log)) ->
        hybridWeights cfg1 = hybridWeights cfg2
        \/ keywordQuery (AssistantChainState.rewrittenQuery state1)
           = keywordQuery (AssistantChainState.rewrittenQuery state2)).
Proof.
  intros H.
  destruct (H Sample.allOn
              (Sample.settingsOf
                 [ ("AI_ENABLED", "true"); ("OPENAI_ENABLED", "true");
                   ("RETRIEVAL_HYBRID_SEARCH_SEMANTIC_WEIGHT", "0.5");
                   ("RETRIEVAL_HYBRID_SEARCH_KEYWORD_WEIGHT", "0.5") ])
              (rankingOnly [])
              (refundState "refund policy") (refundState "money back") [])
    as [Hweights|Hkeywords].
  - vm_compute. reflexivity.
  - apply (f_equal fst) in Hweights. revert Hweights.
    apply (number_neq (fun w => PrimFloat.ltb w 0.625)).
    vm_compute. discriminate.
  - discriminate Hkeywords.
Qed.

(** ** The Answer Synthesizer: [generateFinalAnswer] *)

(** C2, as amended: once the model for the [response] task is resolved,
    [generateFinalAnswer] sends one request with the eight prompt arguments
    and returns what the provider returns, answer and citations untouched;
    no citation is checked against the documents or dropped. *)
Theorem generateFinalAnswer_returns_provider_answer
    (cfg : Configuration) (llm : Llm) (promptArgs : AnswerArgs)
    (log log1 : list Event) (m : ChatModel) :
  getChatModel cfg response false log = (Ok m, log1) ->
  generateFinalAnswer cfg llm promptArgs log
  = (completeAnswer llm log1 answerPrompt m (answerInput promptArgs),
     (log1 ++ [Invoked answerPrompt m (answerInput promptArgs)])%list).
Proof.
  intros Hm. unfold generateFinalAnswer, bind. rewrite Hm. reflexivity.
Qed.

Lemma generateFinalAnswer_returns_provider_answer_witness :
  generateFinalAnswer Sample.allOn
    (answerOnly {| answer := "30 days.";
                   citations := [ {| Citation.sourceId := "doc2";
                                     Citation.quote := "thirty days" |} ] |})
    (refundArgs [document "doc1" "Refunds within 30 days."]) []
  = (Ok {| answer := "30 days.";
           citations := [ {| Citation.sourceId := "doc2";
                             Citation.quote := "thirty days" |} ] |},
     [ Constructed (ChatOpenAI "gpt-4o-mini" (Some 0x1.3333333333333p-2%float)
                      (Some "sk-openai"));
       Invoked answerPrompt
         (ChatOpenAI "gpt-4o-mini" (Some 0x1.3333333333333p-2%float)
            (Some "sk-openai"))
         (answerInput (refundArgs [document "doc1" "Refunds within 30 days."])) ]).
Proof.
  apply (generateFinalAnswer_returns_provider_answer Sample.allOn
           (answerOnly {| answer := "30 days.";
                          citations := [ {| Citation.sourceId := "doc2";
                                            Citation.quote := "thirty days" |} ] |})
           (refundArgs [document "doc1" "Refunds within 30 days."]) []
           [Constructed (ChatOpenAI "gpt-4o-mini" (Some 0x1.3333333333333p-2%float)
                           (Some "sk-openai"))]
           (ChatOpenAI "gpt-4o-mini" (Some 0x1.3333333333333p-2%float)
              (Some "sk-openai"))).
  vm_compute. reflexivity.
Defined.

(** C2, as stated, fails: with the one document [doc1] supplied, however
    the caller renders it into [formattedDocuments], an answer that cites
    [doc2] is returned with that citation. *)
Lemma generateFinalAnswer_keeps_unknown_citation :
  ~ (forall (render : list Document.t -> string) cfg llm documents promptArgs
            log cited log',
        formattedDocuments promptArgs = render documents ->
        generateFinalAnswer cfg llm promptArgs log = (Ok cited, log') ->
        citesOnly documents cited).
Proof.
  intros H.
  assert (citesOnly [document "doc1" "Refunds within 30 days."]
            {| answer := "30 days.";
               citations := [ {| Citation.sourceId := "doc2";
                                 Citation.quote := "thirty days" |} ] |})
    as Hcites.
  { eapply (H formatContext Sample.allOn
              (answerOnly {| answer := "30 days.";
                             citations := [ {| Citation.sourceId := "doc2";
                                               Citation.quote := "thirty days" |} ] |})
              [document "doc1" "Refunds within 30 days."]
              (refundArgs [document "doc1" "Refunds within 30 days."]) []).
    - reflexivity.
    - vm_compute. reflexivity. }
  inversion Hcites as [|? ? Hin _]. cbn in Hin.
  destruct Hin as [Hin|[]]. discriminate Hin.
Qed.

(** ** The Intent Router: [assessUserIntent] *)

Lemma append_cons (c : ascii) (a b : string) :
  String c a +:+ b = String c (a +:+ b).
Proof. reflexivity. Qed.

Lemma append_nil_l (a : string) : "" +:+ a = a.
Proof. reflexivity. Qed.

Lemma append_nil_r (a : string) : a +:+ "" = a.
Proof.
  induction a as [|c a IH]; [reflexivity|]. rewrite append_cons, IH. reflexivity.
Qed.

Lemma append_assoc (a b c : string) : (a +:+ b) +:+ c = a +:+ (b +:+ c).
Proof.
  induction a as [|x a IH]; [reflexivity|].
  rewrite !append_cons, IH. reflexivity.
Qed.

Lemma reverse_acc (s acc : string) : reverse s acc = reverse s "" +:+ acc.
Proof.
  revert acc. induction s as [|c s IH]; intros acc; cbn [reverse]; [reflexivity|].
  rewrite (IH (String c acc)), (IH (String c "")).
  rewrite append_assoc. reflexivity.
Qed.

Lemma reverse_app (a b acc : string) :
  reverse (a +:+ b) acc = reverse b (reverse a acc).
Proof.
  revert acc. induction a as [|c a IH]; intros acc; [reflexivity|].
  rewrite append_cons. cbn [reverse]. apply IH.
Qed.

Lemma reverse_involutive (s : string) : reverse (reverse s "") "" = s.
Proof.
  induction s as [|c s IH]; cbn [reverse]; [reflexivity|].
  rewrite (reverse_acc s (String c "")), reverse_app, IH. reflexivity.
Qed.

Lemma allWhiteSpace_reverse (s acc : string) :
  allWhiteSpace (reverse s acc) = allWhiteSpace s && allWhiteSpace acc.
Proof.
  revert acc. induction s as [|c s IH]; intros acc; cbn; [reflexivity|].
  rewrite IH. cbn. destruct (isWhiteSpace c), (allWhiteSpace s); reflexivity.
Qed.

Lemma trimStart_padding (padding s : string) :
  allWhiteSpace padding = true -> trimStart (padding +:+ s) = trimStart s.
Proof.
  induction padding as [|c padding IH]; [reflexivity|].
  rewrite append_cons. cbn [allWhiteSpace trimStart].
  destruct (isWhiteSpace c); cbn [andb]; [exact IH | discriminate].
Qed.

Lemma trimStart_clean (s : string) : startsClean s -> trimStart s = s.
Proof.
  destruct s as [|c s]; cbn; [reflexivity|]. intros ->. reflexivity.
Qed.

Lemma trimStart_all (padding : string) :
  allWhiteSpace padding = true -> trimStart padding = "".
Proof.
  intros H. rewrite <- (append_nil_r padding) at 1.
  rewrite (trimStart_padding _ _ H). reflexivity.
Qed.

Lemma trimEnd_padding (s padding : string) :
  allWhiteSpace padding = true -> trimEnd (s +:+ padding) = trimEnd s.
Proof.
  intros H. unfold trimEnd.
  rewrite reverse_app, (reverse_acc padding (reverse s "")), trimStart_padding;
    [reflexivity|].
  rewrite allWhiteSpace_reverse, H. reflexivity.
Qed.

Lemma trimEnd_clean (s : string) : startsClean (reverse s "") -> trimEnd s = s.
Proof.
  intros H. unfold trimEnd. rewrite (trimStart_clean _ H).
  apply reverse_involutive.
Qed.

(** [trim] removes the white space around a text that has none at either
    end, and nothing else. *)
Lemma trim_padded (lead core trail : string) :
  allWhiteSpace lead = true -> allWhiteSpace trail = true ->
  startsClean core -> startsClean (reverse core "") ->
  trim (lead +:+ core +:+ trail) = core.
Proof.
  intros Hlead Htrail Hfront Hback. unfold trim.
  rewrite (trimStart_padding _ _ Hlead).
  destruct core as [|c core].
  - rewrite append_nil_l, (trimStart_all _ Htrail). reflexivity.
  - rewrite append_cons. rewrite trimStart_clean by exact Hfront.
    rewrite <- append_cons.
    rewrite (trimEnd_padding _ _ Htrail). apply trimEnd_clean, Hback.
Qed.

(** White space around the response does not change the verdict. *)
Lemma intentOf_padded (lead core trail : string) :
  allWhiteSpace lead = true -> allWhiteSpace trail = true ->
  startsClean core -> startsClean (reverse core "") ->
  intentOf (lead +:+ core +:+ trail) = intentOf core.
Proof.
  intros Hlead Htrail Hfront Hback. unfold intentOf.
  rewrite (trim_padded _ _ _ Hlead Htrail Hfront Hback).
  pose proof (trim_padded "" core "" eq_refl eq_refl Hfront Hback) as Hcore.
  rewrite append_nil_l, append_nil_r in Hcore. rewrite Hcore. reflexivity.
Qed.


Lemma intentOf_retrieve (result : string) :
  intentOf result = retrieve <-> toLowerCase (trim result) <> "no_context".
Proof.
  unfold intentOf.
  destruct (String.eqb_spec (toLowerCase (trim result)) "no_context") as [H|H].
  - split; [discriminate | intros H'; contradiction].
  - split; intros _; [exact H | reflexivity].
Qed.

Example intentOf_examples :
  intentOf "no_context" = no_context
  /\ intentOf ("  No_Context" +:+ newline) = no_context
  /\ intentOf "NO_CONTEXT" = no_context
  /\ intentOf "no context" = retrieve
  /\ intentOf "no_context." = retrieve
  /\ intentOf "no_ context" = retrieve
  /\ intentOf "" = retrieve
  /\ intentOf "retrieve" = retrieve.
Proof. vm_compute. repeat split. Qed.

(** *** Which answers mean [no_context] *)


















(** The no-break space is white space to [trim]; a capital of the Latin-1
    range is folded, and is no letter of the token. *)
Example intentOf_latin1 :
  intentOf (String (ascii_of_nat 160) "no_context") = no_context
  /\ intentOf ("NO_CONTEXT" +:+ String (ascii_of_nat 160) "") = no_context
  /\ toLowerCase (String (ascii_of_nat 201) "") = String (ascii_of_nat 233) ""
  /\ toLowerCase (String (ascii_of_nat 215) "") = String (ascii_of_nat 215) ""
  /\ intentOf (String (ascii_of_nat 133) "no_context") = retrieve.
Proof. vm_compute. repeat split. Qed.

(** An answer of white space only, the empty answer included, routes to
    retrieval, and so does the token with anything but white space around
    it. *)
Example intentOf_fail_open :
  intentOf "" = retrieve
  /\ intentOf ("  " +:+ newline) = retrieve
  /\ intentOf "no_context, the question is general" = retrieve
  /\ intentOf "Answer: no_context" = retrieve.
Proof. vm_compute. repeat split. Qed.

(** ** The Deep-Search Controller *)







Section ControllerProperties.

Variable cfg : Configuration.
Variable llm : Llm.
Variable search : list Event -> RewrittenQuery -> list Document.t.
Variable sourcesText : list RankingEntry.t -> string.
Variable userQuery : string.
Variable history : string.

Local Abbreviation step :=
  (DeepSearch.step cfg llm search sourcesText userQuery history).
Local Abbreviation drive :=
  (DeepSearch.drive cfg llm search sourcesText userQuery history).

(** The configured bound is the integer [maxIterations]. *)
Variable settings : AiConfiguration.DeepSearch.t.
Variable maxIterations : Z.
Hypothesis configured : AiConfiguration.deepSearch (ai cfg) = Some settings.
Hypothesis integer :
  integerValue (AiConfiguration.DeepSearch.maxIterations settings)
  = Some maxIterations.

(** The retrieval passes counted from the log a turn started with. *)
Variable before : nat.







End ControllerProperties.





(** The bound as the loader leaves it: the default text [3] and the text
    [2] are the integers 3 and 2; a text [parseInt] makes [NaN] of is no
    integer, and no counter reaches it. *)
Example maxIterations_of_sample :
  option_map (fun settings =>
                integerValue (AiConfiguration.DeepSearch.maxIterations settings))
    (AiConfiguration.deepSearch (ai Sample.allOn)) = Some (Some 3%Z)
  /\ option_map (fun settings =>
                   integerValue (AiConfiguration.DeepSearch.maxIterations settings))
       (AiConfiguration.deepSearch (ai twoIterations)) = Some (Some 2%Z)
  /\ integerValue 0.5%float = None
  /\ integerValue PrimFloat.nan = None
  /\ DeepSearch.atLeast 1000000 PrimFloat.nan = false
  /\ DeepSearch.atLeast 3 0x1.4p+1%float = true
  /\ DeepSearch.atLeast 2 0x1.4p+1%float = false.
Proof. vm_compute. repeat split. Qed.

(** On sample values the comparison is the one of the doubles: the counter
    as a double against the bound, [2.5], an infinity and [NaN] included. *)
Example atLeast_as_doubles :
  let counter k := PrimFloat.of_uint63 (Uint63.of_Z k) in
  forallb (fun k =>
             forallb (fun x =>
                        Bool.eqb (DeepSearch.atLeast k x)
                          (PrimFloat.leb x (counter k)))
               [ 0%float; 1%float; 2%float; 0x1.4p+1%float; 3%float;
                 1000%float; 0x1p+60%float; (-1)%float;
                 PrimFloat.infinity; PrimFloat.neg_infinity; PrimFloat.nan ])
    [0; 1; 2; 3; 4; 1000; 9007199254740992]%Z
  = true.
Proof. vm_compute. reflexivity. Qed.

(** The scenario of section 8: bound 3, two insufficient verdicts with a
    refined query, then a sufficient one: three passes, DONE. *)
Example deep_search_scenario :
  match refundSearch Sample.allOn (satisfiedAfter 3) 9 [] with
  | (Ok (Some run), log) =>
      DeepSearch.state run = DeepSearch.DONE
      /\ DeepSearch.passes log = 3%nat
      /\ DeepSearch.iteration run = 3%Z
      /\ length (DeepSearch.queries run) = 3%nat
  | _ => False
  end.
Proof. vm_compute. repeat split. Qed.

(** A planner that is never satisfied is stopped by the configured bound,
    and one that proposes nothing after the first pass. *)
Example deep_search_stopped_by_bound :
  DeepSearch.passes (snd (refundSearch Sample.allOn insatiable 9 [])) = 3%nat
  /\ DeepSearch.passes (snd (refundSearch twoIterations insatiable 6 [])) = 2%nat
  /\ DeepSearch.passes (snd (refundSearch Sample.allOn speechless 9 [])) = 1%nat.
Proof. vm_compute. repeat split. Qed.

(** With AI off the first reranking throws, after the one retrieval. *)
Example deep_search_ai_disabled :
  refundSearch (Sample.settingsOf Sample.shouting) insatiable 9 []
  = (Throw (Error "AI is disabled."), [Retrieved (refinedTo "refund policy")]).
Proof. vm_compute. reflexivity. Qed.

(** * Further properties of the loader and the service *)

(** ** The loader: what makes the module load *)

Lemma getRequiredEnv_cases env name :
  (exists v, Loader.getRequiredEnv env name = Ok v /\ isSet env name = true)
  \/ (Loader.getRequiredEnv env name = Throw (Error (name +:+ " is not set"))
      /\ isSet env name = false).
Proof.
  unfold Loader.getRequiredEnv, isSet.
  destruct (env !! name) as [[|c s]|]; eauto.
Qed.

(** One read of a required variable, or one [BigInt] call, in the body of
    the loader; [tac] closes the branch in which it throws. *)
Ltac required env name tac :=
  idtac;
  let v := fresh "v" in
  let Hget := fresh "Hget" in
  let Hset := fresh "Hset" in
  destruct (getRequiredEnv_cases env name) as [(v & Hget & Hset)|[Hget Hset]];
  rewrite Hget; cbn [bindR]; [|solve [tac]].

Ltac quota BigInt tac :=
  idtac;
  match goal with
  | |- context [bindR (BigInt ?t) _] =>
      let H := fresh "Hquota" in
      destruct (BigInt t) eqn:H; cbn [bindR]; [|solve [tac]]
  end.

Ltac loader_steps env BigInt tac :=
  required env "SERVER_NAME" tac;
  quota BigInt tac; quota BigInt tac;
  required env "POSTGRES_URL" tac;
  required env "REDIS_URL" tac;
  required env "S3_AVATARS_ENDPOINT" tac;
  required env "S3_AVATARS_ACCESS_KEY" tac;
  required env "S3_AVATARS_SECRET_KEY" tac;
  required env "S3_AVATARS_BUCKET_NAME" tac;
  required env "S3_AVATARS_REGION" tac;
  required env "S3_FILES_ENDPOINT" tac;
  required env "S3_FILES_ACCESS_KEY" tac;
  required env "S3_FILES_SECRET_KEY" tac;
  required env "S3_FILES_BUCKET_NAME" tac;
  required env "S3_FILES_REGION" tac;
  required env "SMTP_EMAIL_FROM" tac;
  required env "SMTP_EMAIL_FROM_NAME" tac.

(** X1: the configuration module loads exactly when each of the fifteen
    required variables holds a non-empty text and [BigInt] accepts the two
    quota texts (the variable's value, or the default when it is unset or
    empty). *)
Theorem configuration_loads_iff
    (env : gmap string string) (parseInt parseFloat : string -> number)
    (BigInt : string -> Result Z) :
  (exists cfg, Loader.configuration env parseInt parseFloat BigInt = Ok cfg)
  <-> (Forall (fun name => isSet env name = true) requiredVariables
       /\ (exists limit,
              BigInt (orElse (env !! "USER_STORAGE_LIMIT") "10737418240") = Ok limit)
       /\ (exists size,
              BigInt (orElse (env !! "USER_MAX_FILE_SIZE") "104857600") = Ok size)).
Proof.
  unfold Loader.configuration, Loader.s3FromEnv, Loader.getOptionalEnv,
    requiredVariables.
  split.
  - loader_steps env BigInt ltac:(intros [cfg H]; discriminate H).
    intros _. split; [repeat constructor; assumption|].
    split; eexists; reflexivity.
  - intros (Hall & [limit Hlimit] & [size Hsize]).
    repeat match goal with
           | H : Forall _ (_ :: _) |- _ => inversion H; clear H; subst
           end.
    loader_steps env BigInt ltac:(congruence).
    eexists. reflexivity.
Qed.

(** X2: when a required variable is unset or empty, the module throws
    [Error(`${name} is not set`)] for the first such variable in source
    order; [SERVER_NAME] is read first of all, the others after [BigInt] has
    accepted the two quota texts. *)
Theorem configuration_reports_first_missing
    (env : gmap string string) (parseInt parseFloat : string -> number)
    (BigInt : string -> Result Z) (name : string) (limit size : Z) :
  find (fun n => negb (isSet env n)) requiredVariables = Some name ->
  name = "SERVER_NAME"
  \/ (BigInt (orElse (env !! "USER_STORAGE_LIMIT") "10737418240") = Ok limit
      /\ BigInt (orElse (env !! "USER_MAX_FILE_SIZE") "104857600") = Ok size) ->
  Loader.configuration env parseInt parseFloat BigInt
  = Throw (Error (name +:+ " is not set")).
Proof.
  intros Hfind Hquotas.
  unfold Loader.configuration, Loader.s3FromEnv, Loader.getOptionalEnv.
  destruct Hquotas as [->|[Hlimit Hsize]].
  - apply find_some in Hfind. destruct Hfind as [_ Hunset].
    destruct (getRequiredEnv_cases env "SERVER_NAME") as [(v & _ & Hset)|[Hget _]].
    + rewrite Hset in Hunset. discriminate Hunset.
    + rewrite Hget. reflexivity.
  - cbn [find requiredVariables] in Hfind.
    loader_steps env BigInt
      ltac:(first
              [ congruence
              | repeat match goal with
                       | Hs : isSet env _ = _ |- _ => rewrite Hs in Hfind; clear Hs
                       end;
                cbn [negb] in Hfind; inversion Hfind; reflexivity ]).
    repeat match goal with
           | Hs : isSet env _ = _ |- _ => rewrite Hs in Hfind; clear Hs
           end.
    discriminate Hfind.
Qed.

Lemma configuration_reports_first_missing_witness :
  Loader.configuration
    (delete "REDIS_URL" (delete "SMTP_EMAIL_FROM" (Sample.envOf [])))
    Sample.parseInt Sample.parseFloat Sample.BigInt
  = Throw (Error ("REDIS_URL" +:+ " is not set")).
Proof.
  apply (configuration_reports_first_missing
           (delete "REDIS_URL" (delete "SMTP_EMAIL_FROM" (Sample.envOf [])))
           Sample.parseInt Sample.parseFloat Sample.BigInt
           "REDIS_URL" 10737418240 104857600).
  - vm_compute. reflexivity.
  - right. split; vm_compute; reflexivity.
Defined.

(** X3: the two quota variables are optional, yet a text that [BigInt]
    rejects aborts the module with [BigInt]'s exception, once
    [SERVER_NAME] is set and whatever the rest of the environment holds. *)
Theorem configuration_rejected_quota_aborts
    (env : gmap string string) (parseInt parseFloat : string -> number)
    (BigInt : string -> Result Z) (e : Exception) :
  isSet env "SERVER_NAME" = true ->
  BigInt (orElse (env !! "USER_STORAGE_LIMIT") "10737418240") = Throw e
  \/ ((exists limit,
          BigInt (orElse (env !! "USER_STORAGE_LIMIT") "10737418240") = Ok limit)
      /\ BigInt (orElse (env !! "USER_MAX_FILE_SIZE") "104857600") = Throw e) ->
  Loader.configuration env parseInt parseFloat BigInt = Throw e.
Proof.
  intros Hname Hquota.
  unfold Loader.configuration, Loader.getOptionalEnv.
  destruct (getRequiredEnv_cases env "SERVER_NAME") as [(v & Hget & _)|[_ Hset]];
    [|congruence].
  rewrite Hget. cbn [bindR].
  destruct Hquota as [Hlimit|[[limit Hlimit] Hsize]].
  - rewrite Hlimit. reflexivity.
  - rewrite Hlimit. cbn [bindR]. rewrite Hsize. reflexivity.
Qed.

Lemma configuration_rejected_quota_aborts_witness :
  Loader.configuration (<["USER_MAX_FILE_SIZE" := "100MB"]> (Sample.envOf []))
    Sample.parseInt Sample.parseFloat Sample.BigInt
  = Throw (SyntaxError "Cannot convert 100MB to a BigInt").
Proof.
  apply (configuration_rejected_quota_aborts
           (<["USER_MAX_FILE_SIZE" := "100MB"]> (Sample.envOf []))
           Sample.parseInt Sample.parseFloat Sample.BigInt
           (SyntaxError "Cannot convert 100MB to a BigInt")).
  - vm_compute. reflexivity.
  - right. split; [exists 10737418240%Z|]; vm_compute; reflexivity.
Defined.

(** ** The loader: an empty value and an unset variable *)

Section Blank.

Variable env : gmap string string.
Variable v : string.

Lemma lookup_blank_other (name : string) :
  name <> v -> <[v := ""]> env !! name = delete v env !! name.
Proof.
  intros Hne. rewrite lookup_insert_ne, lookup_delete_ne by congruence.
  reflexivity.
Qed.

Lemma orElse_blank (name fallback : string) :
  orElse (<[v := ""]> env !! name) fallback = orElse (delete v env !! name) fallback.
Proof.
  destruct (decide (name = v)) as [->|Hne].
  - rewrite lookup_insert_eq, lookup_delete_eq. reflexivity.
  - rewrite (lookup_blank_other _ Hne). reflexivity.
Qed.

Lemma isTrue_blank (name : string) :
  isTrue (<[v := ""]> env !! name) = isTrue (delete v env !! name).
Proof.
  destruct (decide (name = v)) as [->|Hne].
  - rewrite lookup_insert_eq, lookup_delete_eq. reflexivity.
  - rewrite (lookup_blank_other _ Hne). reflexivity.
Qed.

Lemma getRequiredEnv_blank (name : string) :
  Loader.getRequiredEnv (<[v := ""]> env) name
  = Loader.getRequiredEnv (delete v env) name.
Proof.
  unfold Loader.getRequiredEnv.
  destruct (decide (name = v)) as [->|Hne].
  - rewrite lookup_insert_eq, lookup_delete_eq. reflexivity.
  - rewrite (lookup_blank_other _ Hne). reflexivity.
Qed.

Lemma aiFromEnv_blank (parseInt parseFloat : string -> number) :
  Loader.aiFromEnv (<[v := ""]> env) parseInt parseFloat
  = Loader.aiFromEnv (delete v env) parseInt parseFloat.
Proof.
  assert (Loader.modelsFromEnv (<[v := ""]> env) parseFloat
          = Loader.modelsFromEnv (delete v env) parseFloat) as Hmodels.
  { apply functional_extensionality. intros task.
    destruct task; unfold Loader.modelsFromEnv, Loader.modelFromEnv,
      Loader.getOptionalEnv; rewrite !orElse_blank; reflexivity. }
  unfold Loader.aiFromEnv, Loader.getOptionalEnv.
  rewrite Hmodels, !orElse_blank, !isTrue_blank. reflexivity.
Qed.

End Blank.

(** X4: for every variable other than the four [POSTGRES_SSL_*] ones,
    setting it to the empty string gives the same outcome of the loader,
    exception or settings object, as leaving it unset. *)
Theorem configuration_blank_is_unset
    (env : gmap string string) (parseInt parseFloat : string -> number)
    (BigInt : string -> Result Z) (v : string) :
  ~ In v sslVariables ->
  Loader.configuration (<[v := ""]> env) parseInt parseFloat BigInt
  = Loader.configuration (delete v env) parseInt parseFloat BigInt.
Proof.
  intros Hssl.
  assert (forall name, In name sslVariables ->
                       <[v := ""]> env !! name = delete v env !! name) as Hother.
  { intros name Hin. apply lookup_blank_other. intros ->. exact (Hssl Hin). }
  unfold Loader.configuration, Loader.s3FromEnv, Loader.getOptionalEnv.
  rewrite !getRequiredEnv_blank, !orElse_blank.
  repeat match goal with
         | |- context [bindR ?r _] =>
             lazymatch r with
             | bindR _ _ => fail
             | Ok _ => fail
             | _ => destruct r; cbn [bindR]; [|reflexivity]
             end
         end.
  rewrite aiFromEnv_blank, !isTrue_blank.
  rewrite !(Hother "POSTGRES_SSL_REJECT_UNAUTHORIZED"),
    !(Hother "POSTGRES_SSL_CA"), !(Hother "POSTGRES_SSL_KEY"),
    !(Hother "POSTGRES_SSL_CERT") by (cbn; tauto).
  reflexivity.
Qed.

Lemma configuration_blank_is_unset_witness :
  Loader.configuration (<["RERANK_PROVIDER" := ""]> (Sample.envOf []))
    Sample.parseInt Sample.parseFloat Sample.BigInt
  = Loader.configuration (delete "RERANK_PROVIDER" (Sample.envOf []))
      Sample.parseInt Sample.parseFloat Sample.BigInt.
Proof.
  apply (configuration_blank_is_unset (Sample.envOf [])
           Sample.parseInt Sample.parseFloat Sample.BigInt "RERANK_PROVIDER").
  cbn. intros H. repeat (destruct H as [H|H]; [discriminate H|]). exact H.
Defined.

(** X5: [postgres.ssl.rejectUnauthorized] tells an empty value from an
    unset variable: in a module that loaded it is [undefined] exactly when
    [POSTGRES_SSL_REJECT_UNAUTHORIZED] is unset, and [true] exactly when
    the variable is the string [true]; any other text, the empty one
    included, gives [false]. *)
Theorem rejectUnauthorized_three_states
    (env : gmap string string) (parseInt parseFloat : string -> number)
    (BigInt : string -> Result Z) (cfg : Configuration) :
  Loader.configuration env parseInt parseFloat BigInt = Ok cfg ->
  let flag :=
    PostgresConfiguration.rejectUnauthorized
      (PostgresConfiguration.ssl (postgres cfg)) in
  (flag = None <-> env !! "POSTGRES_SSL_REJECT_UNAUTHORIZED" = None)
  /\ (flag = Some true <-> env !! "POSTGRES_SSL_REJECT_UNAUTHORIZED" = Some "true")
  /\ (forall text, env !! "POSTGRES_SSL_REJECT_UNAUTHORIZED" = Some text ->
                   text <> "true" -> flag = Some false).
Proof.
  unfold Loader.configuration, Loader.s3FromEnv, Loader.getOptionalEnv.
  loader_steps env BigInt ltac:(discriminate).
  intros H. inversion H. subst cfg. clear H. cbn.
  destruct (env !! "POSTGRES_SSL_REJECT_UNAUTHORIZED") as [text|].
  - split; [split; discriminate|]. split.
    + split; intros H.
      * apply isTrue_spec. congruence.
      * f_equal. apply isTrue_spec. exact H.
    + intros text' Heq Hne. inversion Heq. subst text'.
      f_equal. destruct (isTrue (Some text)) eqn:Htrue; [|reflexivity].
      apply isTrue_spec in Htrue. congruence.
  - split; [split; reflexivity|]. split; [split; discriminate|].
    intros text H. discriminate H.
Qed.

Lemma rejectUnauthorized_three_states_witness :
  let flag :=
    PostgresConfiguration.rejectUnauthorized
      (PostgresConfiguration.ssl
         (postgres (Sample.settingsOf []))) in
  (flag = None <-> Sample.envOf [] !! "POSTGRES_SSL_REJECT_UNAUTHORIZED" = None)
  /\ (flag = Some true
      <-> Sample.envOf [] !! "POSTGRES_SSL_REJECT_UNAUTHORIZED" = Some "true")
  /\ (forall text,
         Sample.envOf [] !! "POSTGRES_SSL_REJECT_UNAUTHORIZED" = Some text ->
         text <> "true" -> flag = Some false).
Proof.
  apply (rejectUnauthorized_three_states (Sample.envOf [])
           Sample.parseInt Sample.parseFloat Sample.BigInt (Sample.settingsOf [])).
  vm_compute. reflexivity.
Defined.

(** ** Model resolution: when it succeeds, how it fails *)

Lemma objectPrototype_not_provider (tag : string) :
  In tag objectPrototype -> tag <> "openai" /\ tag <> "google".
Proof.
  cbn. intros H.
  repeat (destruct H as [<-|H]; [split; discriminate|]). contradiction.
Qed.

Lemma getProvider_cases (ps : AiConfiguration.Providers) (tag : AiProvider) :
  (tag = "openai" /\ getProvider ps tag = Own (AiConfiguration.openai ps))
  \/ (tag = "google" /\ getProvider ps tag = Own (AiConfiguration.google ps))
  \/ (In tag objectPrototype /\ getProvider ps tag = Inherited)
  \/ (tag <> "openai" /\ tag <> "google" /\ ~ In tag objectPrototype
      /\ getProvider ps tag = Undefined).
Proof.
  unfold getProvider.
  destruct (String.eqb_spec tag "openai") as [->|Hopenai]; [left; split; reflexivity|].
  destruct (String.eqb_spec tag "google") as [->|Hgoogle];
    [right; left; split; reflexivity|].
  destruct (existsb (String.eqb tag) objectPrototype) eqn:Hproto.
  - right. right. left. split; [apply inherited_tag, Hproto | reflexivity].
  - right. right. right. repeat split; try assumption.
    intros Hin. apply not_true_iff_false in Hproto. apply Hproto.
    apply existsb_exists. exists tag. split; [exact Hin | apply String.eqb_refl].
Qed.

(** X6: when [getChatModel] returns a client, AI is on, the task's
    provider is [openai] or [google] with [enabled = true], the client has
    the task's model name and that provider's key, it has the task's
    temperature unless the provider is [openai] and the reasoning flag is
    set, and constructing it is the only event. *)
Theorem getChatModel_returned_client
    (cfg : Configuration) (task : Task) (reasoningModel : bool)
    (log log' : list Event) (m : ChatModel) :
  let modelConfig := AiConfiguration.models (ai cfg) task in
  let providers := AiConfiguration.providers (ai cfg) in
  getChatModel cfg task reasoningModel log = (Ok m, log') ->
  AiConfiguration.enabled (ai cfg) = true
  /\ log' = (log ++ [Constructed m])%list
  /\ ((AiModelConfiguration.provider modelConfig = "openai"
       /\ AiProviderConfiguration.enabled (AiConfiguration.openai providers)
          = Some true
       /\ m = ChatOpenAI (AiModelConfiguration.modelName modelConfig)
                (if reasoningModel then None
                 else Some (AiModelConfiguration.temperature modelConfig))
                (Some (AiProviderConfiguration.apiKey
                         (AiConfiguration.openai providers))))
      \/ (AiModelConfiguration.provider modelConfig = "google"
          /\ AiProviderConfiguration.enabled (AiConfiguration.google providers)
             = Some true
          /\ m = ChatGoogleGenerativeAI
                   (AiModelConfiguration.modelName modelConfig)
                   (Some (AiModelConfiguration.temperature modelConfig))
                   (Some (AiProviderConfiguration.apiKey
                            (AiConfiguration.google providers))))).
Proof.
  cbn zeta. unfold getChatModel. cbn zeta.
  destruct (AiConfiguration.enabled (ai cfg)); cbn [negb]; [|discriminate].
  set (p := AiModelConfiguration.provider (AiConfiguration.models (ai cfg) task)).
  destruct (getProvider_cases (AiConfiguration.providers (ai cfg)) p)
    as [[Hp Hget]|[[Hp Hget]|[[Hp Hget]|(Ho & Hg & _ & Hget)]]];
    rewrite Hget; unfold bind; cbn [readEnabled ret throw readApiKey].
  - rewrite Hp. cbn [String.eqb Ascii.eqb Bool.eqb].
    destruct (AiProviderConfiguration.enabled _) as [[|]|]; cbn [falsy];
      [|discriminate|discriminate].
    destruct reasoningModel; unfold construct; intros H; inversion H; subst;
      repeat split; left; repeat split.
  - rewrite Hp. cbn [String.eqb Ascii.eqb Bool.eqb].
    destruct (AiProviderConfiguration.enabled _) as [[|]|]; cbn [falsy];
      [|discriminate|discriminate].
    unfold construct; intros H; inversion H; subst;
      repeat split; right; repeat split.
  - cbn [falsy]. discriminate.
  - discriminate.
Qed.

Lemma getChatModel_returned_client_witness :
  AiConfiguration.enabled (ai Sample.googleOff) = true
  /\ [Constructed (ChatOpenAI "gpt-4o-mini" (Some 0%float) (Some "sk-openai"))]
     = ([] ++ [Constructed (ChatOpenAI "gpt-4o-mini" (Some 0%float)
                              (Some "sk-openai"))])%list
  /\ ((AiModelConfiguration.provider
         (AiConfiguration.models (ai Sample.googleOff) intentRecognition) = "openai"
       /\ AiProviderConfiguration.enabled
            (AiConfiguration.openai (AiConfiguration.providers (ai Sample.googleOff)))
          = Some true
       /\ ChatOpenAI "gpt-4o-mini" (Some 0%float) (Some "sk-openai")
          = ChatOpenAI
              (AiModelConfiguration.modelName
                 (AiConfiguration.models (ai Sample.googleOff) intentRecognition))
              (if false then None
               else Some (AiModelConfiguration.temperature
                            (AiConfiguration.models (ai Sample.googleOff)
                               intentRecognition)))
              (Some (AiProviderConfiguration.apiKey
                       (AiConfiguration.openai
                          (AiConfiguration.providers (ai Sample.googleOff))))))
      \/ (AiModelConfiguration.provider
            (AiConfiguration.models (ai Sample.googleOff) intentRecognition) = "google"
          /\ AiProviderConfiguration.enabled
               (AiConfiguration.google (AiConfiguration.providers (ai Sample.googleOff)))
             = Some true
          /\ ChatOpenAI "gpt-4o-mini" (Some 0%float) (Some "sk-openai")
             = ChatGoogleGenerativeAI
                 (AiModelConfiguration.modelName
                    (AiConfiguration.models (ai Sample.googleOff) intentRecognition))
                 (Some (AiModelConfiguration.temperature
                          (AiConfiguration.models (ai Sample.googleOff)
                             intentRecognition)))
                 (Some (AiProviderConfiguration.apiKey
                          (AiConfiguration.google
                             (AiConfiguration.providers (ai Sample.googleOff))))))).
Proof.
  apply (getChatModel_returned_client Sample.googleOff intentRecognition false [] 
           [Constructed (ChatOpenAI "gpt-4o-mini" (Some 0%float) (Some "sk-openai"))]
           (ChatOpenAI "gpt-4o-mini" (Some 0%float) (Some "sk-openai"))).
  vm_compute. reflexivity.
Defined.

(** X7: how [getChatModel] fails before it reaches a client constructor,
    with AI on; each failure leaves the event log as it was.
    ['<tag> provider is disabled.'] is thrown when the task's provider is
    [openai] or [google] without [enabled = true], and also when the tag
    names a member of [Object.prototype]; the engine's [TypeError] is
    thrown for every other tag that is neither [openai] nor [google]. *)
Theorem getChatModel_rejects_before_construction
    (cfg : Configuration) (task : Task) (reasoningModel : bool)
    (log : list Event) :
  let tag := AiModelConfiguration.provider (AiConfiguration.models (ai cfg) task) in
  let providers := AiConfiguration.providers (ai cfg) in
  AiConfiguration.enabled (ai cfg) = true ->
  ((tag = "openai"
    /\ AiProviderConfiguration.enabled (AiConfiguration.openai providers) <> Some true)
   \/ (tag = "google"
       /\ AiProviderConfiguration.enabled (AiConfiguration.google providers)
          <> Some true)
   \/ In tag objectPrototype ->
   getChatModel cfg task reasoningModel log
   = (Throw (Error (tag +:+ " provider is disabled.")), log))
  /\ (tag <> "openai" -> tag <> "google" -> ~ In tag objectPrototype ->
      getChatModel cfg task reasoningModel log
      = (Throw (TypeError "Cannot read properties of undefined (reading 'enabled')"),
         log)).
Proof.
  cbn zeta. intros Hon. unfold getChatModel. cbn zeta. rewrite Hon. cbn [negb].
  set (p := AiModelConfiguration.provider (AiConfiguration.models (ai cfg) task)).
  destruct (getProvider_cases (AiConfiguration.providers (ai cfg)) p)
    as [[Hp Hget]|[[Hp Hget]|[[Hp Hget]|(Ho & Hg & Hproto & Hget)]]];
    rewrite Hget; unfold bind; cbn [readEnabled ret throw readApiKey].
  - split; [|intros Hne; contradiction].
    intros [[_ Hoff]|[[Hg _]|Hin]].
    + destruct (AiProviderConfiguration.enabled _) as [[|]|]; cbn [falsy];
        [contradiction Hoff; reflexivity | reflexivity | reflexivity].
    + rewrite Hp in Hg. discriminate Hg.
    + destruct (objectPrototype_not_provider p Hin) as [Hne _]. contradiction.
  - split; [|intros _ Hne; contradiction].
    intros [[Ho _]|[[_ Hoff]|Hin]].
    + rewrite Hp in Ho. discriminate Ho.
    + destruct (AiProviderConfiguration.enabled _) as [[|]|]; cbn [falsy];
        [contradiction Hoff; reflexivity | reflexivity | reflexivity].
    + destruct (objectPrototype_not_provider p Hin) as [_ Hne]. contradiction.
  - split; [|intros _ _ Hout; contradiction].
    intros _. cbn [falsy]. reflexivity.
  - split; [|intros _ _ _; reflexivity].
    intros [[Hp _]|[[Hp _]|Hin]]; contradiction.
Qed.

Lemma getChatModel_rejects_before_construction_witness :
  getChatModel Sample.googleOff deepRerank true []
  = (Throw (Error "google provider is disabled."), [])
  /\ getChatModel Sample.unknownProvider rerank false []
     = (Throw (TypeError "Cannot read properties of undefined (reading 'enabled')"),
        []).
Proof.
  split.
  - apply (proj1 (getChatModel_rejects_before_construction
                    Sample.googleOff deepRerank true [] eq_refl)).
    right. left. split; [reflexivity | discriminate].
  - apply (proj2 (getChatModel_rejects_before_construction
                    Sample.unknownProvider rerank false [] eq_refl)).
    + discriminate.
    + discriminate.
    + cbn. intuition discriminate.
Defined.

(** X8: in a module that loaded, [getChatModel] returns a client for a
    task only if [AI_ENABLED] is the string [true] and the task's provider
    is [openai] with [OPENAI_ENABLED] the string [true], or [google] with
    [GOOGLE_ENABLED] the string [true]. *)
Theorem loaded_getChatModel_needs_flags
    (env : gmap string string) (parseInt parseFloat : string -> number)
    (BigInt : string -> Result Z) (cfg : Configuration)
    (task : Task) (reasoningModel : bool) (log log' : list Event) (m : ChatModel) :
  Loader.configuration env parseInt parseFloat BigInt = Ok cfg ->
  getChatModel cfg task reasoningModel log = (Ok m, log') ->
  let tag := AiModelConfiguration.provider (AiConfiguration.models (ai cfg) task) in
  env !! "AI_ENABLED" = Some "true"
  /\ ((tag = "openai" /\ env !! "OPENAI_ENABLED" = Some "true")
      \/ (tag = "google" /\ env !! "GOOGLE_ENABLED" = Some "true")).
Proof.
  intros Hload. apply configuration_ai in Hload. cbn zeta.
  unfold getChatModel. cbn zeta. rewrite Hload.
  cbn [Loader.aiFromEnv AiConfiguration.enabled AiConfiguration.providers
       AiConfiguration.models].
  unfold Loader.getOptionalEnv.
  set (p := AiModelConfiguration.provider (Loader.modelsFromEnv env parseFloat task)).
  rewrite <- !isTrue_spec.
  destruct (isTrue (env !! "AI_ENABLED")); cbn [negb]; [|discriminate].
  match goal with
  | |- context [getProvider ?ps p] =>
      destruct (getProvider_cases ps p)
        as [[Hp Hget]|[[Hp Hget]|[[Hp Hget]|(Ho & Hg & _ & Hget)]]];
      rewrite Hget
  end; unfold bind;
    cbn [readEnabled ret throw readApiKey AiConfiguration.openai
         AiConfiguration.google AiProviderConfiguration.enabled].
  - rewrite Hp. cbn [String.eqb Ascii.eqb Bool.eqb].
    destruct (isTrue (env !! "OPENAI_ENABLED")); cbn [falsy]; [|discriminate].
    intros _. split; [reflexivity | left; split; reflexivity].
  - rewrite Hp. cbn [String.eqb Ascii.eqb Bool.eqb].
    destruct (isTrue (env !! "GOOGLE_ENABLED")); cbn [falsy]; [|discriminate].
    intros _. split; [reflexivity | right; split; reflexivity].
  - cbn [falsy]. discriminate.
  - discriminate.
Qed.

Lemma loaded_getChatModel_needs_flags_witness :
  Sample.envOf [ ("AI_ENABLED", "true"); ("OPENAI_ENABLED", "true");
                 ("OPENAI_API_KEY", "sk-openai") ] !! "AI_ENABLED"
  = Some "true"
  /\ ((AiModelConfiguration.provider
         (AiConfiguration.models (ai Sample.googleOff) intentRecognition) = "openai"
       /\ Sample.envOf [ ("AI_ENABLED", "true"); ("OPENAI_ENABLED", "true");
                         ("OPENAI_API_KEY", "sk-openai") ] !! "OPENAI_ENABLED"
          = Some "true")
      \/ (AiModelConfiguration.provider
            (AiConfiguration.models (ai Sample.googleOff) intentRecognition) = "google"
          /\ Sample.envOf [ ("AI_ENABLED", "true"); ("OPENAI_ENABLED", "true");
                            ("OPENAI_API_KEY", "sk-openai") ] !! "GOOGLE_ENABLED"
             = Some "true")).
Proof.
  apply (loaded_getChatModel_needs_flags
           (Sample.envOf [ ("AI_ENABLED", "true"); ("OPENAI_ENABLED", "true");
                           ("OPENAI_API_KEY", "sk-openai") ])
           Sample.parseInt Sample.parseFloat Sample.BigInt
           Sample.googleOff intentRecognition false []
           [Constructed (ChatOpenAI "gpt-4o-mini" (Some 0%float) (Some "sk-openai"))]
           (ChatOpenAI "gpt-4o-mini" (Some 0%float) (Some "sk-openai")));
    vm_compute; reflexivity.
Defined.

(** ** The service functions as users of [getChatModel] *)

(** Resolution constructs a client or throws, and sends nothing. *)
Lemma getChatModel_outcome cfg task reasoningModel log :
  (exists m, getChatModel cfg task reasoningModel log
             = (Ok m, (log ++ [Constructed m])%list))
  \/ (exists e, getChatModel cfg task reasoningModel log = (Throw e, log)).
Proof.
  destruct (getChatModel cfg task reasoningModel log) as [[m|e] log'] eqn:Hrun.
  - left. exists m. apply getChatModel_Ok in Hrun. destruct Hrun as [-> _].
    reflexivity.
  - right. exists e. f_equal. revert Hrun. unfold getChatModel. cbn zeta.
    destruct (negb _); [intros H; inversion H; reflexivity|].
    unfold bind.
    destruct (getProvider _ _); cbn;
      repeat match goal with
             | |- context [if ?b then _ else _] => destruct b; cbn
             end;
      intros H; inversion H; reflexivity.
Qed.

(** A function that resolves its model and then invokes one pipeline. *)
Lemma resolve_then_invoke {A} cfg task reasoningModel p input log
    (provider : list Event -> Prompt -> ChatModel -> PromptInput -> Result A) :
  oneInvocation cfg task reasoningModel p input log
    (bind (getChatModel cfg task reasoningModel)
       (fun model => invoke provider p model input) log).
Proof.
  unfold oneInvocation, bind.
  destruct (getChatModel_outcome cfg task reasoningModel log) as [[m Hm]|[e He]].
  - right. exists m. split; [exact Hm|]. rewrite Hm. unfold invoke. cbn [snd].
    rewrite <- app_assoc. reflexivity.
  - left. exists e. split; [exact He|]. rewrite He. reflexivity.
Qed.

(** The same for a function that maps the answer before it returns. *)
Lemma resolve_invoke_then_map {A B} cfg task reasoningModel p input log
    (provider : list Event -> Prompt -> ChatModel -> PromptInput -> Result A)
    (f : A -> B) :
  oneInvocation cfg task reasoningModel p input log
    (bind (getChatModel cfg task reasoningModel)
       (fun model => bind (invoke provider p model input)
                       (fun result => ret (f result))) log).
Proof.
  unfold oneInvocation, bind.
  destruct (getChatModel_outcome cfg task reasoningModel log) as [[m Hm]|[e He]].
  - right. exists m. split; [exact Hm|]. rewrite Hm. unfold invoke.
    destruct (provider _ p m input); cbn [snd ret];
      rewrite <- app_assoc; reflexivity.
  - left. exists e. split; [exact He|]. rewrite He. reflexivity.
Qed.

Section ServiceCalls.

Variable cfg : Configuration.
Variable llm : Llm.
Variable DatabaseFilterResult : Type.
Variable completeRewrite :
  list Event -> Prompt -> ChatModel -> PromptInput -> Result RewrittenQuery.
Variable completeFilters :
  list Event -> Prompt -> ChatModel -> PromptInput -> Result DatabaseFilterResult.

Variable log : list Event.
Variable text history : string.
Variable optionalText : option string.
Variable document : Document.t.
Variable state : AssistantChainState.t.
Variable promptArgs : AnswerArgs.
Variable databases : list Database.t.
Variable evaluateArgs : EvaluateArgs.

(** X9: one call of a service function either fails in model resolution,
    and then throws that exception with the event log as it was, or adds
    to the log the client resolved for the function's own task and flag
    followed by exactly one invocation, of the function's own prompt
    pipeline through that client and on the request built from the
    function's arguments. No function invokes a pipeline a second time or
    invokes another template. (An event is one call of [invoke]; what the
    client does for it on the wire is not part of the service.) *)
Theorem service_call_invokes_once :
  oneInvocation cfg queryRewrite false queryRewritePrompt
    [("query", text); ("chatHistory", default "" optionalText)] log
    (rewriteQuery cfg completeRewrite text optionalText log)
  /\ oneInvocation cfg summarization false summarizationPrompt
       [("text", Document.pageContent document); ("query", text)] log
       (summarizeDocument cfg llm document text log)
  /\ oneInvocation cfg (rerankTask state) (rerankReasoning state) rerankPrompt
       [ ("query", semanticQuery (AssistantChainState.rewrittenQuery state));
         ("context", formatContext (AssistantChainState.contextDocuments state)) ]
       log (rerankDocuments cfg llm state log)
  /\ oneInvocation cfg response false answerPrompt (answerInput promptArgs) log
       (generateFinalAnswer cfg llm promptArgs log)
  /\ oneInvocation cfg noContext false noContextPrompt
       [("question", text); ("formattedChatHistory", history)] log
       (generateNoContextAnswer cfg llm text history log)
  /\ oneInvocation cfg intentRecognition false intentRecognitionPrompt
       [("question", text); ("formattedChatHistory", history)] log
       (assessUserIntent cfg llm text history log)
  /\ oneInvocation cfg databaseFilter false databaseFilterPrompt
       [("query", text); ("databasesInfo", databasesInfo databases)] log
       (generateDatabaseFilters cfg DatabaseFilterResult completeFilters
          text databases log)
  /\ oneInvocation cfg deepPlanner true evaluateAndRefinePrompt
       [ ("query", query evaluateArgs); ("sources", sources evaluateArgs);
         ("chatHistory", chatHistory evaluateArgs) ] log
       (evaluateAndRefine cfg llm evaluateArgs log)
  /\ oneInvocation cfg contextEnhancer false chunkSummarizationPrompt
       [ ("chunk", text); ("fullText", default "" optionalText);
         ("nodeType", history) ] log
       (enrichChunk cfg llm text optionalText history log).
Proof.
  repeat split;
    first [ apply resolve_then_invoke
          | apply (resolve_invoke_then_map cfg intentRecognition false
                     intentRecognitionPrompt _ log (completeText llm) intentOf)
          | apply (resolve_invoke_then_map cfg (rerankTask state)
                     (rerankReasoning state) rerankPrompt _ log
                     (completeRanking llm) rankings) ].
Qed.

(** X10: with [configuration.ai.enabled] off, every service function
    throws [Error('AI is disabled.')] and the event log stays as it was:
    no client is constructed, no prompt is rendered into a request. *)
Theorem service_disabled_sends_nothing :
  AiConfiguration.enabled (ai cfg) = false ->
  let off {A} : Result A * list Event := (Throw (Error "AI is disabled."), log) in
  rewriteQuery cfg completeRewrite text optionalText log = off
  /\ summarizeDocument cfg llm document text log = off
  /\ rerankDocuments cfg llm state log = off
  /\ generateFinalAnswer cfg llm promptArgs log = off
  /\ generateNoContextAnswer cfg llm text history log = off
  /\ assessUserIntent cfg llm text history log = off
  /\ generateDatabaseFilters cfg DatabaseFilterResult completeFilters
       text databases log = off
  /\ evaluateAndRefine cfg llm evaluateArgs log = off
  /\ enrichChunk cfg llm text optionalText history log = off.
Proof.
  intros Hoff. cbn zeta.
  pose proof (fun task flag => getChatModel_off cfg task flag log Hoff) as Hthrow.
  repeat split;
    unfold rewriteQuery, summarizeDocument, rerankDocuments, generateFinalAnswer,
      generateNoContextAnswer, assessUserIntent, generateDatabaseFilters,
      evaluateAndRefine, enrichChunk;
    cbn zeta; unfold bind at 1; rewrite Hthrow; reflexivity.
Qed.

(** The invocation of a resolved client that the provider rejects. *)
Lemma rejected_invocation {A} task reasoningModel p input m log1 e
    (provider : list Event -> Prompt -> ChatModel -> PromptInput -> Result A) :
  getChatModel cfg task reasoningModel log = (Ok m, log1) ->
  provider log1 p m input = Throw e ->
  bind (getChatModel cfg task reasoningModel)
    (fun model => invoke provider p model input) log
  = (Throw e, (log1 ++ [Invoked p m input])%list).
Proof.
  intros Hm Hreject. unfold bind. rewrite Hm. unfold invoke. rewrite Hreject.
  reflexivity.
Qed.

Lemma rejected_invocation_mapped {A B} task reasoningModel p input m log1 e
    (provider : list Event -> Prompt -> ChatModel -> PromptInput -> Result A)
    (f : A -> B) :
  getChatModel cfg task reasoningModel log = (Ok m, log1) ->
  provider log1 p m input = Throw e ->
  bind (getChatModel cfg task reasoningModel)
    (fun model => bind (invoke provider p model input)
                    (fun result => ret (f result))) log
  = (Throw e, (log1 ++ [Invoked p m input])%list).
Proof.
  intros Hm Hreject. unfold bind. rewrite Hm. unfold invoke. rewrite Hreject.
  reflexivity.
Qed.

(** X11: a service function whose own model resolved, and whose one
    invocation the provider rejects (the client gave up on the transport,
    the answer failed the schema), throws the provider's exception as it
    is, and its trace ends with that one invocation: the function catches
    nothing, invokes no pipeline a second time and returns no fallback
    value. Each function needs only the model of its own task. *)
Theorem service_provider_rejection_propagates
    (m : ChatModel) (log1 : list Event) (e : Exception) :
  (getChatModel cfg queryRewrite false log = (Ok m, log1) ->
   completeRewrite log1 queryRewritePrompt m
     [("query", text); ("chatHistory", default "" optionalText)] = Throw e ->
   rewriteQuery cfg completeRewrite text optionalText log
   = (Throw e,
      (log1 ++ [Invoked queryRewritePrompt m
                  [("query", text); ("chatHistory", default "" optionalText)]])%list))
  /\ (getChatModel cfg summarization false log = (Ok m, log1) ->
      completeText llm log1 summarizationPrompt m
        [("text", Document.pageContent document); ("query", text)] = Throw e ->
      summarizeDocument cfg llm document text log
      = (Throw e,
         (log1 ++ [Invoked summarizationPrompt m
                     [("text", Document.pageContent document);
                      ("query", text)]])%list))
  /\ (getChatModel cfg (rerankTask state) (rerankReasoning state) log = (Ok m, log1) ->
      completeRanking llm log1 rerankPrompt m (rerankInput state) = Throw e ->
      rerankDocuments cfg llm state log
      = (Throw e, (log1 ++ [Invoked rerankPrompt m (rerankInput state)])%list))
  /\ (getChatModel cfg response false log = (Ok m, log1) ->
      completeAnswer llm log1 answerPrompt m (answerInput promptArgs) = Throw e ->
      generateFinalAnswer cfg llm promptArgs log
      = (Throw e, (log1 ++ [Invoked answerPrompt m (answerInput promptArgs)])%list))
  /\ (getChatModel cfg noContext false log = (Ok m, log1) ->
      completeText llm log1 noContextPrompt m
        [("question", text); ("formattedChatHistory", history)] = Throw e ->
      generateNoContextAnswer cfg llm text history log
      = (Throw e,
         (log1 ++ [Invoked noContextPrompt m
                     [("question", text);
                      ("formattedChatHistory", history)]])%list))
  /\ (getChatModel cfg intentRecognition false log = (Ok m, log1) ->
      completeText llm log1 intentRecognitionPrompt m
        [("question", text); ("formattedChatHistory", history)] = Throw e ->
      assessUserIntent cfg llm text history log
      = (Throw e,
         (log1 ++ [Invoked intentRecognitionPrompt m
                     [("question", text);
                      ("formattedChatHistory", history)]])%list))
  /\ (getChatModel cfg databaseFilter false log = (Ok m, log1) ->
      completeFilters log1 databaseFilterPrompt m
        [("query", text); ("databasesInfo", databasesInfo databases)] = Throw e ->
      generateDatabaseFilters cfg DatabaseFilterResult completeFilters
        text databases log
      = (Throw e,
         (log1 ++ [Invoked databaseFilterPrompt m
                     [("query", text);
                      ("databasesInfo", databasesInfo databases)]])%list))
  /\ (getChatModel cfg deepPlanner true log = (Ok m, log1) ->
      completeEvaluation llm log1 evaluateAndRefinePrompt m
        [ ("query", query evaluateArgs); ("sources", sources evaluateArgs);
          ("chatHistory", chatHistory evaluateArgs) ] = Throw e ->
      evaluateAndRefine cfg llm evaluateArgs log
      = (Throw e,
         (log1 ++ [Invoked evaluateAndRefinePrompt m
                     [ ("query", query evaluateArgs);
                       ("sources", sources evaluateArgs);
                       ("chatHistory", chatHistory evaluateArgs) ]])%list))
  /\ (getChatModel cfg contextEnhancer false log = (Ok m, log1) ->
      completeText llm log1 chunkSummarizationPrompt m
        [ ("chunk", text); ("fullText", default "" optionalText);
          ("nodeType", history) ] = Throw e ->
      enrichChunk cfg llm text optionalText history log
      = (Throw e,
         (log1 ++ [Invoked chunkSummarizationPrompt m
                     [ ("chunk", text); ("fullText", default "" optionalText);
                       ("nodeType", history) ]])%list)).
Proof.
  repeat split; intros Hm Hreject;
    first [ apply (rejected_invocation _ _ _ _ _ _ _ _ Hm Hreject)
          | apply (rejected_invocation_mapped _ _ _ _ _ _ _ _ intentOf Hm Hreject)
          | apply (rejected_invocation_mapped _ _ _ _ _ _ _ _ rankings Hm Hreject) ].
Qed.

End ServiceCalls.

Lemma service_disabled_sends_nothing_witness :
  rerankDocuments (Sample.settingsOf Sample.shouting) (rankingOnly [])
    (refundState "refund") [] = (Throw (Error "AI is disabled."), [])
  /\ enrichChunk (Sample.settingsOf Sample.shouting) (rankingOnly [])
       "Refunds within 30 days." None "page" []
     = (Throw (Error "AI is disabled."), []).
Proof.
  assert (AiConfiguration.enabled (ai (Sample.settingsOf Sample.shouting)) = false)
    as Hoff by (vm_compute; reflexivity).
  pose proof (service_disabled_sends_nothing
                (Sample.settingsOf Sample.shouting) (rankingOnly []) unit
                (fun _ _ _ _ => Ok (refinedTo "refund"))
                (fun _ _ _ _ => Ok tt)
                [] "Refunds within 30 days." "page" None
                (document "doc1" "Refunds within 30 days.")
                (refundState "refund") (refundArgs [])
                []
                {| query := "q"; sources := ""; chatHistory := "" |}
                Hoff) as Hall.
  cbn zeta in Hall.
  destruct Hall as (_ & _ & Hrerank & _ & _ & _ & _ & _ & Henrich).
  split; [exact Hrerank | exact Henrich].
Defined.

(** The Google provider is off; the rewriter, bound to [openai], still
    resolves its model, and a rejected request surfaces as it is. *)
Lemma service_provider_rejection_propagates_witness :
  rewriteQuery Sample.googleOff (fun _ _ _ _ => Throw (Error "fetch failed"))
    "What is our refund policy?" None []
  = (Throw (Error "fetch failed"),
     [ Constructed (ChatOpenAI "gpt-4o-mini" (Some 0x1.3333333333333p-2%float)
                      (Some "sk-openai"));
       Invoked queryRewritePrompt
         (ChatOpenAI "gpt-4o-mini" (Some 0x1.3333333333333p-2%float)
            (Some "sk-openai"))
         [("query", "What is our refund policy?"); ("chatHistory", "")] ]).
Proof.
  apply (proj1 (service_provider_rejection_propagates
                  Sample.googleOff (rankingOnly []) unit
                  (fun _ _ _ _ => Throw (Error "fetch failed"))
                  (fun _ _ _ _ => Ok tt)
                  [] "What is our refund policy?" "" None
                  (document "doc1" "Refunds within 30 days.")
                  (refundState "refund") (refundArgs [])
                  []
                  {| query := "q"; sources := ""; chatHistory := "" |}
                  (ChatOpenAI "gpt-4o-mini" (Some 0x1.3333333333333p-2%float)
                     (Some "sk-openai"))
                  [Constructed (ChatOpenAI "gpt-4o-mini"
                                  (Some 0x1.3333333333333p-2%float)
                                  (Some "sk-openai"))]
                  (Error "fetch failed")));
    vm_compute; reflexivity.
Defined.

(** ** The listings rendered into prompts *)

Lemma concat_snoc (sep : string) (lines : list string) (line : string) :
  String.concat sep (lines ++ [line])
  = String.concat sep lines
    +:+ match lines with [] => "" | _ :: _ => sep end +:+ line.
Proof.
  induction lines as [|first rest IH]; [reflexivity|].
  destruct rest as [|second rest].
  - reflexivity.
  - change (String.concat sep ((first :: second :: rest) ++ [line]))
      with (first +:+ sep +:+ String.concat sep ((second :: rest) ++ [line])).
    rewrite IH.
    change (String.concat sep (first :: second :: rest))
      with (first +:+ sep +:+ String.concat sep (second :: rest)).
    rewrite !append_assoc. reflexivity.
Qed.

(** X13: the listing [rerankDocuments] builds numbers the candidates by
    their position, from 0: adding a candidate at the end leaves the lines
    of the earlier ones as they were and appends one line, numbered with
    the count of the candidates before it and separated by an empty line
    (the first candidate's line stands alone). *)
Theorem formatContext_snoc (documents : list Document.t) (last : Document.t) :
  formatContext (documents ++ [last])
  = formatContext documents
    +:+ match documents with [] => "" | _ :: _ => newline end
    +:+ decimal (length documents) +:+ ". Type: "
    +:+ Document.type (Document.metadata last)
    +:+ ", Content: " +:+ Document.pageContent last
    +:+ ", ID: " +:+ Document.id (Document.metadata last) +:+ newline.
Proof.
  unfold formatContext. rewrite imap_app. cbn [imap].
  rewrite Nat.add_0_r, concat_snoc.
  destruct documents; reflexivity.
Qed.

Lemma ownField_listed (fields : list (string * DatabaseField.t))
    (key : string) (field : DatabaseField.t) :
  NoDup (map fst fields) -> In (key, field) fields -> ownField fields key = Some field.
Proof.
  induction fields as [|[k f] rest IH]; intros Hkeys Hin; [contradiction|].
  cbn [ownField]. cbn [map fst] in Hkeys.
  apply NoDup_cons in Hkeys. destruct Hkeys as [Hfresh Hrest].
  destruct Hin as [Heq|Hin].
  - inversion Heq. subst. rewrite String.eqb_refl. reflexivity.
  - destruct (String.eqb_spec k key) as [->|Hne].
    + exfalso. apply Hfresh. apply list_elem_of_In.
      apply (in_map fst) in Hin. exact Hin.
    + apply IH; assumption.
Qed.

Lemma ownField_unlisted (fields : list (string * DatabaseField.t)) (key : string) :
  ~ In key (map fst fields) -> ownField fields key = None.
Proof.
  induction fields as [|[k f] rest IH]; intros Hout; [reflexivity|].
  cbn [ownField]. cbn [map fst In] in Hout.
  destruct (String.eqb_spec k key) as [->|Hne]; [tauto|].
  apply IH. tauto.
Qed.

(** X14: in the sample records [generateDatabaseFilters] renders, a value
    stored under the id of a field of the database is labelled with that
    field's name; a value stored under an id that is neither a field of
    the database nor a member of [Object.prototype] is labelled
    [undefined] and is still sent. *)
Theorem renderCell_label (db : Database.t) (fieldId value : string) :
  NoDup (map fst (Database.fields db)) ->
  (forall field,
      In (fieldId, field) (Database.fields db) ->
      renderCell db (fieldId, value) = DatabaseField.name field +:+ ": " +:+ value)
  /\ (~ In fieldId (map fst (Database.fields db)) ->
      ~ In fieldId objectPrototype ->
      renderCell db (fieldId, value) = "undefined" +:+ ": " +:+ value).
Proof.
  intros Hkeys. unfold renderCell, fieldLabel. cbn [fst snd]. split.
  - intros field Hin. rewrite (ownField_listed _ _ _ Hkeys Hin). reflexivity.
  - intros Hout Hproto. rewrite (ownField_unlisted _ _ Hout).
    destruct (String.eqb_spec fieldId "constructor") as [->|_];
      [exfalso; apply Hproto; cbn; tauto|].
    destruct (String.eqb_spec fieldId "__proto__") as [->|_]; [reflexivity|].
    destruct (existsb (String.eqb fieldId) objectPrototype) eqn:Hex;
      [|reflexivity].
    exfalso. apply Hproto, inherited_tag, Hex.
Qed.

Lemma renderCell_label_witness :
  (forall field,
      In ("f1", field) (Database.fields contacts) ->
      renderCell contacts ("f1", "Ada") = DatabaseField.name field +:+ ": " +:+ "Ada")
  /\ (~ In "f1" (map fst (Database.fields contacts)) ->
      ~ In "f1" objectPrototype ->
      renderCell contacts ("f1", "Ada") = "undefined" +:+ ": " +:+ "Ada").
Proof.
  apply (renderCell_label contacts "f1" "Ada").
  cbn. repeat constructor; cbn; intros H.
  - apply list_elem_of_In in H. cbn in H. destruct H as [H|[]]. discriminate H.
  - apply list_elem_of_In in H. destruct H.
Defined.

(** The text [generateDatabaseFilters] sends for the contacts database, and
    for no database at all. *)
Example databasesInfo_contacts :
  databasesInfo [contacts]
  = newline +:+ "Database: Contacts (ID: db1)" +:+ newline
    +:+ "Fields:" +:+ newline
    +:+ "- Name (ID: f1, Type: text)" +:+ newline
    +:+ "- Email (ID: f2, Type: email)" +:+ newline
    +:+ newline
    +:+ "Sample Records:" +:+ newline
    +:+ "1. Name: Ada, undefined: 42" +:+ newline.
Proof. vm_compute. reflexivity. Qed.

Example databasesInfo_none : databasesInfo [] = "".
Proof. reflexivity. Qed.

(** A value stored under the id [constructor] is labelled with the name of
    the function found on the prototype chain. *)
Example renderCell_constructor :
  renderCell contacts ("constructor", "x") = "Object: x".
Proof. vm_compute. reflexivity. Qed.
